(** * Natrium: the device image resource (Natrium/Graphics/DeviceImage.cpp)

    A shallow embedding of [Na::DeviceImage] and of [Na::CreateImageView]:
    the Vulkan structures the file fills in, a device that logs every call
    it receives, and the member functions as computations over that device.
    The theorems at the end relate the behaviour of the code to the
    repository's design document. *)

From Stdlib Require Import ZArith List String Lia.
From stdpp Require Import base option list list_numbers.

Local Open Scope string_scope.
Local Open Scope list_scope.
Local Open Scope Z_scope.

(** ** Fixed-width unsigned integers

    [u32] and [u64] values are integers; every arithmetic operation of the
    source that can leave the range has its reduction written out. *)

Definition u32_modulus : Z := 2 ^ 32.
Definition u64_modulus : Z := 2 ^ 64.

Definition u32 (n : Z) : Z := n mod u32_modulus.
Definition u64 (n : Z) : Z := n mod u64_modulus.

Definition u32_add (a b : Z) : Z := u32 (a + b).
Definition u32_sub (a b : Z) : Z := u32 (a - b).
Definition u32_mul (a b : Z) : Z := u32 (a * b).

Definition is_u32 (n : Z) : Prop := 0 <= n < u32_modulus.

(** ** The Vulkan vocabulary used by the file *)

Module ImageLayout.
Inductive t :=
| eUndefined
| eGeneral
| eColorAttachmentOptimal
| eDepthStencilAttachmentOptimal
| eDepthStencilReadOnlyOptimal
| eShaderReadOnlyOptimal
| eTransferSrcOptimal
| eTransferDstOptimal
| ePreinitialized
| ePresentSrcKHR.

#[global] Instance ImageLayout_eq_dec : EqDecision t.
Proof. solve_decision. Defined.
End ImageLayout.

Module ImageType.
Inductive t := e1D | e2D | e3D.

#[global] Instance ImageType_eq_dec : EqDecision t.
Proof. solve_decision. Defined.
End ImageType.

Module ImageViewType.
Inductive t := e1D | e2D | e3D | eCube | e1DArray | e2DArray | eCubeArray.

#[global] Instance ImageViewType_eq_dec : EqDecision t.
Proof. solve_decision. Defined.
End ImageViewType.

Module ImageTiling.
Inductive t := eOptimal | eLinear | eDrmFormatModifierEXT.

#[global] Instance ImageTiling_eq_dec : EqDecision t.
Proof. solve_decision. Defined.
End ImageTiling.

Module SharingMode.
Inductive t := eExclusive | eConcurrent.
End SharingMode.

(** Flag sets are bit masks, with the bit values of the Vulkan headers. *)

Definition Flags := Z.

Module AccessFlagBits.
Definition eShaderRead : Flags := 0x20.
Definition eTransferWrite : Flags := 0x1000.
End AccessFlagBits.

Module PipelineStageFlagBits.
Definition eTopOfPipe : Flags := 0x1.
Definition eFragmentShader : Flags := 0x80.
Definition eTransfer : Flags := 0x1000.
End PipelineStageFlagBits.

Module ImageAspectFlagBits.
Definition eColor : Flags := 0x1.
Definition eDepth : Flags := 0x2.
Definition eStencil : Flags := 0x4.
End ImageAspectFlagBits.

(** [vk::Format] is a large enumeration the file only passes around: a
    format is its numeric code, [eUndefined] being 0. *)
Definition Format := Z.

(** Handles ([vk::Image], [vk::DeviceMemory], [vk::Buffer],
    [vk::ImageView]) are opaque numbers, 0 being the null handle. *)
Definition Handle := Z.
Definition nullptr : Handle := 0.

Definition VK_QUEUE_FAMILY_IGNORED : Z := u32_modulus - 1.

Record Extent3D := mkExtent3D {
  width : Z;
  height : Z;
  depth : Z
}.

Record Offset3D := mkOffset3D {
  off_x : Z;
  off_y : Z;
  off_z : Z
}.

Record ImageSubresourceRange := mkImageSubresourceRange {
  aspectMask : Flags;
  baseMipLevel : Z;
  levelCount : Z;
  baseArrayLayer : Z;
  layerCount : Z
}.

Record ImageSubresourceLayers := mkImageSubresourceLayers {
  isl_aspectMask : Flags;
  isl_mipLevel : Z;
  isl_baseArrayLayer : Z;
  isl_layerCount : Z
}.

Record ImageCreateInfo := mkImageCreateInfo {
  ici_imageType : ImageType.t;
  ici_extent : Extent3D;
  ici_mipLevels : Z;
  ici_arrayLayers : Z;
  ici_format : Format;
  ici_tiling : ImageTiling.t;
  ici_initialLayout : ImageLayout.t;
  ici_usage : Flags;
  ici_sharingMode : SharingMode.t;
  ici_samples : Flags
}.

Record MemoryRequirements := mkMemoryRequirements {
  mr_size : Z;
  mr_memoryTypeBits : Z
}.

Record MemoryAllocateInfo := mkMemoryAllocateInfo {
  mai_allocationSize : Z;
  mai_memoryTypeIndex : Z
}.

Record ImageMemoryBarrier := mkImageMemoryBarrier {
  imb_srcAccessMask : Flags;
  imb_dstAccessMask : Flags;
  imb_oldLayout : ImageLayout.t;
  imb_newLayout : ImageLayout.t;
  imb_srcQueueFamilyIndex : Z;
  imb_dstQueueFamilyIndex : Z;
  imb_image : Handle;
  imb_subresourceRange : ImageSubresourceRange
}.

Record BufferImageCopy := mkBufferImageCopy {
  bufferOffset : Z;
  bufferRowLength : Z;
  bufferImageHeight : Z;
  imageSubresource : ImageSubresourceLayers;
  imageOffset : Offset3D;
  imageExtent : Extent3D
}.

Record ImageViewCreateInfo := mkImageViewCreateInfo {
  ivci_image : Handle;
  ivci_viewType : ImageViewType.t;
  ivci_format : Format;
  ivci_subresourceRange : ImageSubresourceRange
}.

(** A default-constructed [vk::BufferImageCopy] has every member zero. *)
Definition BufferImageCopy_default : BufferImageCopy :=
  mkBufferImageCopy 0 0 0
    (mkImageSubresourceLayers 0 0 0 0)
    (mkOffset3D 0 0 0)
    (mkExtent3D 0 0 0).

(** ** The device

    The device is the external collaborator.  It hands out fresh non-null
    handles and keeps the log of the calls made to it, oldest first; what it
    reports about memory (the memory types of the physical device, the
    requirements of an image) is part of its state and never changes. *)

Inductive Command :=
| pipelineBarrier (srcStageMask dstStageMask dependencyFlags : Flags)
    (imageMemoryBarriers : list ImageMemoryBarrier)
| copyBufferToImage (srcBuffer dstImage : Handle)
    (dstImageLayout : ImageLayout.t) (regions : list BufferImageCopy).

Definition CommandBuffer := list Command.

Inductive Event :=
| EvCreateImage (h : Handle) (info : ImageCreateInfo)
| EvAllocateMemory (h : Handle) (info : MemoryAllocateInfo)
| EvBindImageMemory (image mem : Handle) (offset : Z)
| EvDestroyImage (h : Handle)
| EvFreeMemory (h : Handle)
| EvCreateImageView (h : Handle) (info : ImageViewCreateInfo)
| EvSubmit (cmds : CommandBuffer).

Record Device := mkDevice {
  next_handle : positive;
  memoryTypes : list Flags;
  imageMemoryRequirements : Handle -> MemoryRequirements;
  events : list Event
}.

Definition log (e : Event) (dev : Device) : Device :=
  mkDevice (next_handle dev) (memoryTypes dev) (imageMemoryRequirements dev)
    (events dev ++ [e]).

Definition fresh (dev : Device) : Handle * Device :=
  (Z.pos (next_handle dev),
   mkDevice (Pos.succ (next_handle dev)) (memoryTypes dev)
     (imageMemoryRequirements dev) (events dev)).

(** ** Computations that use the device and may fail *)

(** [out_of_bounds_read] marks a read past the end of an array: the
    behaviour of the program is undefined from there on, and the device
    paired with this outcome only tells what had happened before the
    read. *)
Inductive Failure :=
| runtime_error (what : string)
| assertion_failure (message : string)
| fatal_error (message : string)
| out_of_bounds_read.

Inductive Outcome (A : Type) :=
| Ok (a : A)
| Raise (e : Failure).
Arguments Ok {A} a.
Arguments Raise {A} e.

Definition Vk (A : Type) : Type := Device -> Outcome A * Device.

#[global] Instance Vk_ret : MRet Vk := fun A a dev => (Ok a, dev).

#[global] Instance Vk_bind : MBind Vk := fun A B f m dev =>
  match m dev with
  | (Ok a, dev') => f a dev'
  | (Raise e, dev') => (Raise e, dev')
  end.

Definition throw {A} (e : Failure) : Vk A := fun dev => (Raise e, dev).

(** Calls on [vk::Device]. *)

Definition createImage (info : ImageCreateInfo) : Vk Handle := fun dev =>
  let '(h, dev') := fresh dev in (Ok h, log (EvCreateImage h info) dev').

Definition getImageMemoryRequirements (image : Handle) : Vk MemoryRequirements :=
  fun dev => (Ok (imageMemoryRequirements dev image), dev).

Definition allocateMemory (info : MemoryAllocateInfo) : Vk Handle := fun dev =>
  let '(h, dev') := fresh dev in (Ok h, log (EvAllocateMemory h info) dev').

Definition bindImageMemory (image mem : Handle) (offset : Z) : Vk unit :=
  fun dev => (Ok tt, log (EvBindImageMemory image mem offset) dev).

Definition destroyImage (image : Handle) : Vk unit :=
  fun dev => (Ok tt, log (EvDestroyImage image) dev).

Definition freeMemory (mem : Handle) : Vk unit :=
  fun dev => (Ok tt, log (EvFreeMemory mem) dev).

Definition createImageView (info : ImageViewCreateInfo) : Vk Handle := fun dev =>
  let '(h, dev') := fresh dev in (Ok h, log (EvCreateImageView h info) dev').

(** Modelled from the spec: [VkContext::BeginSingleTimeCommands] and
    [VkContext::EndSingleTimeCommands] (VkContext.cpp is not part of the
    sources at hand).  The first opens an empty command recording, the
    second submits what was recorded and waits for its completion. *)
Definition BeginSingleTimeCommands : Vk CommandBuffer := mret [].

Definition EndSingleTimeCommands (cmd_buffer : CommandBuffer) : Vk unit :=
  fun dev => (Ok tt, log (EvSubmit cmd_buffer) dev).

Definition record (cmd_buffer : CommandBuffer) (c : Command) : CommandBuffer :=
  cmd_buffer ++ [c].

(** Modelled from the spec: the [NA_ASSERT] macro (defined outside
    DeviceImage.cpp), an assertion-style fatal check of a precondition. *)
Definition NA_ASSERT (condition : bool) (message : string) : Vk unit :=
  if condition then mret tt else throw (assertion_failure message).

(** Modelled from the spec: [FindMemoryType] (defined outside
    DeviceImage.cpp).  It scans the memory types of the device and returns
    the index of the first one whose bit is set in [type_bits] and whose
    property flags include [required_properties]; it fails fatally when
    there is none. *)
Fixpoint find_memory_type_from (i : Z) (types : list Flags)
    (type_bits : Z) (required_properties : Flags) : option Z :=
  match types with
  | [] => None
  | properties :: rest =>
      if Z.testbit type_bits i
         && (Z.land properties required_properties =? required_properties)
      then Some i
      else find_memory_type_from (i + 1) rest type_bits required_properties
  end.

Definition FindMemoryType (type_bits : Z) (required_properties : Flags) : Vk Z :=
  fun dev =>
    match find_memory_type_from 0 (memoryTypes dev) type_bits required_properties with
    | Some i => (Ok i, dev)
    | None => (Raise (fatal_error "Failed to find suitable memory type!"), dev)
    end.

(** A [for (u32 i = first; i < bound; i++)] loop whose body leaves [i] and
    [bound] alone runs [bound - first] times when [first < bound] and not at
    all otherwise; [for_u32] runs the body that many times, the increment of
    the counter written as in the source. *)
Fixpoint for_count {S : Type} (count : nat) (i : Z)
    (body : Z -> S -> S) (s : S) : S :=
  match count with
  | O => s
  | Datatypes.S count' => for_count count' (u32_add i 1) body (body i s)
  end.

Definition for_u32 {S : Type} (first bound : Z)
    (body : Z -> S -> S) (s : S) : S :=
  for_count (Z.to_nat (bound - first)) first body s.

(** The same loop with a body that may fail; a failure leaves the loop. *)
Fixpoint for_count_try {S : Type} (count : nat) (i : Z)
    (body : Z -> S -> Outcome S) (s : S) : Outcome S :=
  match count with
  | O => Ok s
  | Datatypes.S count' =>
      match body i s with
      | Ok s' => for_count_try count' (u32_add i 1) body s'
      | Raise e => Raise e
      end
  end.

Definition for_u32_try {S : Type} (first bound : Z)
    (body : Z -> S -> Outcome S) (s : S) : Outcome S :=
  for_count_try (Z.to_nat (bound - first)) first body s.

Definition lift_outcome {A} (o : Outcome A) : Vk A := fun dev => (o, dev).

(** ** DeviceImage *)

Record DeviceImage := mkDeviceImage {
  img : Handle;
  memory : Handle;
  extent : Extent3D;
  format : Format;
  subresource_range : ImageSubresourceRange
}.

(** Modelled from the spec: the accessors declared in DeviceImage.hpp, which
    is not part of the sources at hand.  [width] and [height] are those of
    the extent, [layer_count()] is the layer count of the subresource
    range; all three are 32-bit unsigned values. *)
Definition DeviceImage_width (this : DeviceImage) : Z := width (extent this).
Definition DeviceImage_height (this : DeviceImage) : Z := height (extent this).
Definition layer_count (this : DeviceImage) : Z :=
  layerCount (subresource_range this).

(** The object left by [memset(this, 0, sizeof(DeviceImage))]. *)
Definition zeroed : DeviceImage :=
  mkDeviceImage nullptr nullptr (mkExtent3D 0 0 0) 0
    (mkImageSubresourceRange 0 0 0 0 0).

(** The constructor.  The result is the constructed object; when the
    constructor throws there is no object. *)
Definition DeviceImage_new
    (a_extent : Extent3D) (a_layer_count : Z) (aspect_mask : Flags)
    (a_format : Format) (tiling : ImageTiling.t) (usage : Flags)
    (sharing_mode : SharingMode.t) (sample_count : Flags)
    (memory_properties : Flags) : Vk DeviceImage :=
  let this :=
    mkDeviceImage nullptr nullptr a_extent a_format
      (mkImageSubresourceRange aspect_mask 0 1 0 a_layer_count) in
  NA_ASSERT (0 <? a_layer_count)
    "Failed to create DeviceImage: Invalid layer count!" ;;
  imageType ←
    (if depth a_extent =? 1 then mret ImageType.e2D
     else if 1 <? depth a_extent then mret ImageType.e3D
     else throw (runtime_error "Failed to create DeviceImage: Invalid depth!")) ;
  let create_info :=
    mkImageCreateInfo imageType a_extent 1 a_layer_count a_format
      ImageTiling.eOptimal ImageLayout.eUndefined
      usage sharing_mode sample_count in
  image ← createImage create_info ;
  memory_requirements ← getImageMemoryRequirements image ;
  memoryTypeIndex ←
    FindMemoryType (mr_memoryTypeBits memory_requirements) memory_properties ;
  let alloc_info :=
    mkMemoryAllocateInfo (mr_size memory_requirements) memoryTypeIndex in
  mem ← allocateMemory alloc_info ;
  bindImageMemory image mem 0 ;;
  mret (mkDeviceImage image mem
          (extent this) (format this) (subresource_range this)).

Definition destroy (this : DeviceImage) : Vk DeviceImage :=
  (if bool_decide (img this ≠ nullptr) then destroyImage (img this)
   else mret tt) ;;
  (if bool_decide (memory this ≠ nullptr) then freeMemory (memory this)
   else mret tt) ;;
  mret zeroed.


(** *** Layout transitions *)

Definition with_access (barrier : ImageMemoryBarrier)
    (src_access dst_access : Flags) : ImageMemoryBarrier :=
  mkImageMemoryBarrier src_access dst_access
    (imb_oldLayout barrier) (imb_newLayout barrier)
    (imb_srcQueueFamilyIndex barrier) (imb_dstQueueFamilyIndex barrier)
    (imb_image barrier) (imb_subresourceRange barrier).

Definition transition_layout (this : DeviceImage)
    (old_layout new_layout : ImageLayout.t) : Vk unit :=
  let barrier :=
    mkImageMemoryBarrier 0 0 old_layout new_layout
      VK_QUEUE_FAMILY_IGNORED VK_QUEUE_FAMILY_IGNORED
      (img this) (subresource_range this) in
  '(barrier, execute_stage, wait_stage) ←
    (if bool_decide (old_layout = ImageLayout.eUndefined)
        && bool_decide (new_layout = ImageLayout.eTransferDstOptimal)
     then mret (with_access barrier 0 AccessFlagBits.eTransferWrite,
                PipelineStageFlagBits.eTopOfPipe,
                PipelineStageFlagBits.eTransfer)
     else
     if bool_decide (old_layout = ImageLayout.eTransferDstOptimal)
        && bool_decide (new_layout = ImageLayout.eShaderReadOnlyOptimal)
     then mret (with_access barrier AccessFlagBits.eTransferWrite
                  AccessFlagBits.eShaderRead,
                PipelineStageFlagBits.eTransfer,
                PipelineStageFlagBits.eFragmentShader)
     else throw (runtime_error "Unsupported image layout transition!")) ;
  cmd_buffer ← BeginSingleTimeCommands ;
  let cmd_buffer :=
    record cmd_buffer (pipelineBarrier execute_stage wait_stage 0 [barrier]) in
  EndSingleTimeCommands cmd_buffer.

(** *** Copies from staging buffers *)

Definition copy_from_buffer (this : DeviceImage) (buffer : Handle)
    (starting_layer a_layer_count : Z) : Vk unit :=
  let region :=
    mkBufferImageCopy 0 0 0
      (mkImageSubresourceLayers (aspectMask (subresource_range this)) 0
         starting_layer a_layer_count)
      (mkOffset3D 0 0 0)
      (extent this) in
  cmd_buffer ← BeginSingleTimeCommands ;
  let cmd_buffer :=
    record cmd_buffer
      (copyBufferToImage buffer (img this) ImageLayout.eTransferDstOptimal
         [region]) in
  EndSingleTimeCommands cmd_buffer.

(** Modelled from the spec: [Na::ArrayVector<T>] (declared outside
    DeviceImage.cpp); constructed with a size it holds that many elements,
    one copy-region descriptor per layer.  What an element holds before the
    loop writes to it is not known from the sources; the elements start
    from [default], and no statement below reads a member the loop leaves
    alone. *)
Definition ArrayVector {T : Type} (size : Z) (default : T) : list T :=
  replicate (Z.to_nat size) default.

(** The body of the loop of [copy_all_from_buffer]: the three members of
    [regions[i]] it assigns. *)
Definition fill_region (this : DeviceImage) (starting_layer i : Z)
    (region : BufferImageCopy) : BufferImageCopy :=
  mkBufferImageCopy
    (u64 (u32_mul
            (u32_mul (u32_mul i (DeviceImage_width this))
               (DeviceImage_height this))
            4))
    (bufferRowLength region)
    (bufferImageHeight region)
    (mkImageSubresourceLayers ImageAspectFlagBits.eColor 0
       (u32_add i starting_layer) 1)
    (imageOffset region)
    (mkExtent3D (DeviceImage_width this) (DeviceImage_height this) 1).

Definition copy_all_regions (this : DeviceImage) (starting_layer : Z)
    : list BufferImageCopy :=
  let regions :=
    ArrayVector (u32_sub (layer_count this) starting_layer)
      BufferImageCopy_default in
  for_u32 0 (Z.of_nat (length regions))
    (fun i regions => alter (fill_region this starting_layer i) (Z.to_nat i) regions)
    regions.

Definition copy_all_from_buffer (this : DeviceImage) (buffer : Handle)
    (starting_layer : Z) : Vk unit :=
  let regions := copy_all_regions this starting_layer in
  cmd_buffer ← BeginSingleTimeCommands ;
  let cmd_buffer :=
    record cmd_buffer
      (copyBufferToImage buffer (img this) ImageLayout.eTransferDstOptimal
         regions) in
  EndSingleTimeCommands cmd_buffer.

Definition with_baseArrayLayer (region : BufferImageCopy) (layer : Z)
    : BufferImageCopy :=
  mkBufferImageCopy (bufferOffset region) (bufferRowLength region)
    (bufferImageHeight region)
    (mkImageSubresourceLayers
       (isl_aspectMask (imageSubresource region))
       (isl_mipLevel (imageSubresource region))
       layer
       (isl_layerCount (imageSubresource region)))
    (imageOffset region) (imageExtent region).

(** [buffers] is the array the pointer argument designates; reading past
    its end has no defined behaviour. *)
Definition copy_from_buffers_body (this : DeviceImage) (buffers : list Handle)
    (i : Z) (state : BufferImageCopy * CommandBuffer)
    : Outcome (BufferImageCopy * CommandBuffer) :=
  let '(region, cmd_buffer) := state in
  let region := with_baseArrayLayer region i in
  match buffers !! Z.to_nat i with
  | Some buffer =>
      Ok (region,
          record cmd_buffer
            (copyBufferToImage buffer (img this)
               ImageLayout.eTransferDstOptimal [region]))
  | None => Raise out_of_bounds_read
  end.

Definition copy_from_buffers (this : DeviceImage) (buffers : list Handle)
    (buffer_count starting_layer : Z) : Vk unit :=
  cmd_buffer ← BeginSingleTimeCommands ;
  let region :=
    mkBufferImageCopy 0 0 0
      (mkImageSubresourceLayers (aspectMask (subresource_range this)) 0 0 1)
      (mkOffset3D 0 0 0)
      (extent this) in
  '(region, cmd_buffer) ←
    lift_outcome
      (for_u32_try starting_layer (u32_add starting_layer buffer_count)
         (copy_from_buffers_body this buffers) (region, cmd_buffer)) ;
  EndSingleTimeCommands cmd_buffer.

(** *** Moves *)

Definition with_img (d : DeviceImage) (h : Handle) : DeviceImage :=
  mkDeviceImage h (memory d) (extent d) (format d) (subresource_range d).
Definition with_memory (d : DeviceImage) (h : Handle) : DeviceImage :=
  mkDeviceImage (img d) h (extent d) (format d) (subresource_range d).
Definition with_extent (d : DeviceImage) (e : Extent3D) : DeviceImage :=
  mkDeviceImage (img d) (memory d) e (format d) (subresource_range d).
Definition with_format (d : DeviceImage) (f : Format) : DeviceImage :=
  mkDeviceImage (img d) (memory d) (extent d) f (subresource_range d).
Definition with_subresource_range (d : DeviceImage)
    (r : ImageSubresourceRange) : DeviceImage :=
  mkDeviceImage (img d) (memory d) (extent d) (format d) r.

(** The move constructor: the new object, and what is left of [other]. *)
Definition DeviceImage_move (other : DeviceImage) : DeviceImage * DeviceImage :=
  let this_img := img other in
  let other := with_img other nullptr in
  let this_memory := memory other in
  let other := with_memory other nullptr in
  (mkDeviceImage this_img this_memory
     (extent other) (format other) (subresource_range other),
   other).

(** Move assignment takes two references that may designate the same
    object, so it works on the objects in memory, by address. *)
Definition Address := nat.
Definition Objects := Address -> DeviceImage.

Definition put (objects : Objects) (a : Address) (d : DeviceImage) : Objects :=
  fun a' => if decide (a' = a) then d else objects a'.

Definition move_assign (this other : Address) (objects : Objects) : Vk Objects :=
  destroyed ← destroy (objects this) ;
  let objects := put objects this destroyed in
  let old_img := img (objects other) in
  let objects := put objects other (with_img (objects other) nullptr) in
  let objects := put objects this (with_img (objects this) old_img) in
  let old_memory := memory (objects other) in
  let objects := put objects other (with_memory (objects other) nullptr) in
  let objects := put objects this (with_memory (objects this) old_memory) in
  let objects :=
    put objects this (with_extent (objects this) (extent (objects other))) in
  let objects :=
    put objects this (with_format (objects this) (format (objects other))) in
  let objects :=
    put objects this
      (with_subresource_range (objects this)
         (subresource_range (objects other))) in
  mret objects.

(** *** Image views *)

Definition CreateImageView (image : Handle) (aspect_mask : Flags)
    (a_format : Format) (a_layer_count : Z) : Vk Handle :=
  viewType ←
    (if a_layer_count =? 1 then mret ImageViewType.e2D
     else if 1 <? a_layer_count then mret ImageViewType.e2DArray
     else throw (runtime_error
                   "Failed to create Image View: Invalid layer count!")) ;
  let create_info :=
    mkImageViewCreateInfo image viewType a_format
      (mkImageSubresourceRange aspect_mask 0 1 0 a_layer_count) in
  createImageView create_info.

Definition create_img_view (this : DeviceImage) : Vk Handle :=
  CreateImageView (img this) (aspectMask (subresource_range this))
    (format this) (layer_count this).


(** * The vocabulary of the statements *)

(** The barrier [transition_layout] records for one row of the table. *)
Definition table_barrier (this : DeviceImage)
    (old_layout new_layout : ImageLayout.t)
    (source_access dest_access : Flags) : ImageMemoryBarrier :=
  mkImageMemoryBarrier source_access dest_access old_layout new_layout
    VK_QUEUE_FAMILY_IGNORED VK_QUEUE_FAMILY_IGNORED
    (img this) (subresource_range this).

(** The two rows of the transition table of the design document. *)
Definition supported_transition (old_layout new_layout : ImageLayout.t) : Prop :=
  (old_layout = ImageLayout.eUndefined
   /\ new_layout = ImageLayout.eTransferDstOptimal)
  \/ (old_layout = ImageLayout.eTransferDstOptimal
      /\ new_layout = ImageLayout.eShaderReadOnlyOptimal).

(** The creation request the constructor sends for an extent whose depth it
    accepts. *)
Definition creation_request (a_extent : Extent3D) (a_layer_count : Z)
    (a_format : Format) (usage : Flags) (sharing_mode : SharingMode.t)
    (sample_count : Flags) : ImageCreateInfo :=
  mkImageCreateInfo
    (if depth a_extent =? 1 then ImageType.e2D else ImageType.e3D)
    a_extent 1 a_layer_count a_format
    ImageTiling.eOptimal ImageLayout.eUndefined
    usage sharing_mode sample_count.

(** A device with three memory types, used where a statement is run on
    concrete data. *)
Definition sample_device : Device :=
  mkDevice 1 [0x1; 0x6; 0x7] (fun _ => mkMemoryRequirements 4096 0x6) [].

(** The calls a computation added to the log of the device. *)
Definition added_events (before after : Device) : list Event :=
  drop (length (events before)) (events after).

(** An image creation asks for optimal tiling; other calls are not
    concerned. *)
Definition creates_optimal (e : Event) : Prop :=
  match e with
  | EvCreateImage _ request => ici_tiling request = ImageTiling.eOptimal
  | _ => True
  end.

(** [destroy] called [n] times in a row on one object. *)
Fixpoint destroy_times (n : nat) (this : DeviceImage) : Vk DeviceImage :=
  match n with
  | O => mret this
  | S n' => this' ← destroy this ; destroy_times n' this'
  end.

(** What one [destroy] asks of the device: the image is released when its
    handle is not null, the memory is freed when its handle is not null. *)
Definition releases (this : DeviceImage) : list Event :=
  (if bool_decide (img this ≠ nullptr) then [EvDestroyImage (img this)] else [])
  ++ (if bool_decide (memory this ≠ nullptr) then [EvFreeMemory (memory this)]
      else []).

(** The device once it has received further calls. *)
Definition after_events (dev : Device) (added : list Event) : Device :=
  mkDevice (next_handle dev) (memoryTypes dev) (imageMemoryRequirements dev)
    (events dev ++ added).

(** Counting the releases of one handle in a list of calls. *)
Definition is_destroyImage (h : Handle) (e : Event) : bool :=
  match e with
  | EvDestroyImage h' => bool_decide (h' = h)
  | _ => false
  end.

Definition is_freeMemory (h : Handle) (e : Event) : bool :=
  match e with
  | EvFreeMemory h' => bool_decide (h' = h)
  | _ => false
  end.

Definition calls (p : Event -> bool) (l : list Event) : nat :=
  length (List.filter p l).

(** Two objects in memory, for running move assignment on concrete data. *)
Definition sample_objects : Objects := fun a =>
  match a with
  | O => mkDeviceImage 3 4 (mkExtent3D 8 8 1) 37
           (mkImageSubresourceRange ImageAspectFlagBits.eColor 0 1 0 1)
  | _ => mkDeviceImage 5 6 (mkExtent3D 2 2 1) 44
           (mkImageSubresourceRange ImageAspectFlagBits.eColor 0 1 0 3)
  end.


(** An array image of five 16384 x 16384 layers. *)
Definition large_image : DeviceImage :=
  mkDeviceImage 3 4 (mkExtent3D 16384 16384 1) 37
    (mkImageSubresourceRange ImageAspectFlagBits.eColor 0 1 0 5).

(** A three-layer array image of 2 x 2 texels. *)
Definition small_image : DeviceImage :=
  mkDeviceImage 5 6 (mkExtent3D 2 2 1) 37
    (mkImageSubresourceRange ImageAspectFlagBits.eColor 0 1 0 3).

(** The commands [copy_from_buffers] records when every read of the
    array is in bounds: one copy per buffer, into consecutive layers. *)
Definition layer_copy (this : DeviceImage) (region : BufferImageCopy)
    (layer : Z) (buffer : Handle) : Command :=
  copyBufferToImage buffer (img this) ImageLayout.eTransferDstOptimal
    [with_baseArrayLayer region layer].

Fixpoint layer_copies (this : DeviceImage) (region : BufferImageCopy)
    (layer : Z) (sources : list Handle) : list Command :=
  match sources with
  | [] => []
  | buffer :: rest =>
      layer_copy this region layer buffer
      :: layer_copies this region (layer + 1) rest
  end.

(** The region [copy_from_buffers] starts from. *)
Definition first_region (this : DeviceImage) : BufferImageCopy :=
  mkBufferImageCopy 0 0 0
    (mkImageSubresourceLayers (aspectMask (subresource_range this)) 0 0 1)
    (mkOffset3D 0 0 0)
    (extent this).

(** *** Format selection *)

Definition Format_eUndefined : Format := 0.

Record FormatProperties := mkFormatProperties {
  linearTilingFeatures : Flags;
  optimalTilingFeatures : Flags;
  bufferFeatures : Flags
}.

(** The physical device as [FindSupportedFormat] uses it: the answer of
    [getFormatProperties] for each format. *)
Definition PhysicalDevice := Format -> FormatProperties.

Fixpoint FindSupportedFormat (physical_device : PhysicalDevice)
    (candidates : list Format) (tiling : ImageTiling.t) (features : Flags)
    : Format :=
  match candidates with
  | [] => Format_eUndefined
  | format :: rest =>
      let properties := physical_device format in
      if bool_decide (tiling = ImageTiling.eLinear)
         && (Z.land (linearTilingFeatures properties) features =? features)
      then format
      else
      if bool_decide (tiling = ImageTiling.eOptimal)
         && (Z.land (optimalTilingFeatures properties) features =? features)
      then format
      else FindSupportedFormat physical_device rest tiling features
  end.

(** The features [FindSupportedFormat] looks at for a format under a
    tiling (it looks at none for a tiling that is neither linear nor
    optimal), and what it means for a format to offer all the required
    ones. *)
Definition tiling_features (physical_device : PhysicalDevice)
    (tiling : ImageTiling.t) (format : Format) : option Flags :=
  match tiling with
  | ImageTiling.eLinear => Some (linearTilingFeatures (physical_device format))
  | ImageTiling.eOptimal => Some (optimalTilingFeatures (physical_device format))
  | ImageTiling.eDrmFormatModifierEXT => None
  end.

Definition supports (physical_device : PhysicalDevice)
    (tiling : ImageTiling.t) (features : Flags) (format : Format) : Prop :=
  match tiling_features physical_device tiling format with
  | Some reported => Z.land reported features = features
  | None => False
  end.

(** A device that offers features 0x3 for format 37 and 0x1 for format 44
    under optimal tiling, and nothing else. *)
Definition sample_physical_device : PhysicalDevice := fun format =>
  if format =? 37 then mkFormatProperties 0 0x3 0
  else if format =? 44 then mkFormatProperties 0 0x1 0
  else mkFormatProperties 0 0 0.


(** * Properties *)

(** Unfolding the plumbing of [Vk] computations. *)
Ltac vk_unfold :=
  unfold BeginSingleTimeCommands, EndSingleTimeCommands, NA_ASSERT,
    createImage, getImageMemoryRequirements, FindMemoryType,
    allocateMemory, bindImageMemory, destroyImage, freeMemory,
    createImageView, fresh, throw, lift_outcome in *;
  unfold mbind, mret, Vk_bind, Vk_ret in *.

Lemma u32_small (n : Z) : is_u32 n -> u32 n = n.
Proof. intros H. unfold u32. apply Z.mod_small. exact H. Qed.

Lemma u32_range (n : Z) : is_u32 (u32 n).
Proof. unfold is_u32, u32, u32_modulus. apply Z.mod_pos_bound. lia. Qed.

(** ** Layout transitions *)

(** C3. [transition_layout] succeeds for (Undefined, TransferDestination)
    and for (TransferDestination, ShaderReadOnly), each time submitting one
    recording that holds exactly one pipeline barrier, over the image's own
    subresource range, with the access masks and stages of the table; for
    every other pair it raises the unsupported-transition error and submits
    nothing; so it succeeds exactly for the two pairs. *)
Theorem transition_layout_closed_table (this : DeviceImage) (dev : Device) :
  transition_layout this
      ImageLayout.eUndefined ImageLayout.eTransferDstOptimal dev
    = (Ok tt,
       log (EvSubmit
              [pipelineBarrier
                 PipelineStageFlagBits.eTopOfPipe
                 PipelineStageFlagBits.eTransfer 0
                 [table_barrier this
                    ImageLayout.eUndefined ImageLayout.eTransferDstOptimal
                    0 AccessFlagBits.eTransferWrite]]) dev)
  /\ transition_layout this
      ImageLayout.eTransferDstOptimal ImageLayout.eShaderReadOnlyOptimal dev
    = (Ok tt,
       log (EvSubmit
              [pipelineBarrier
                 PipelineStageFlagBits.eTransfer
                 PipelineStageFlagBits.eFragmentShader 0
                 [table_barrier this
                    ImageLayout.eTransferDstOptimal
                    ImageLayout.eShaderReadOnlyOptimal
                    AccessFlagBits.eTransferWrite
                    AccessFlagBits.eShaderRead]]) dev)
  /\ (forall old_layout new_layout,
        ~ supported_transition old_layout new_layout ->
        transition_layout this old_layout new_layout dev
        = (Raise (runtime_error "Unsupported image layout transition!"), dev))
  /\ (forall old_layout new_layout,
        fst (transition_layout this old_layout new_layout dev) = Ok tt
        <-> supported_transition old_layout new_layout).
Proof.
  assert (Hother : forall old_layout new_layout,
            ~ supported_transition old_layout new_layout ->
            transition_layout this old_layout new_layout dev
            = (Raise (runtime_error "Unsupported image layout transition!"),
               dev)).
  { intros old_layout new_layout Hno. unfold supported_transition in Hno.
    destruct old_layout, new_layout; try reflexivity;
      exfalso; apply Hno; auto. }
  repeat split; try reflexivity; try exact Hother.
  - intros Hok.
    destruct (decide (old_layout = ImageLayout.eUndefined
                      /\ new_layout = ImageLayout.eTransferDstOptimal)) as [H1|H1];
      [left; exact H1|].
    destruct (decide (old_layout = ImageLayout.eTransferDstOptimal
                      /\ new_layout = ImageLayout.eShaderReadOnlyOptimal)) as [H2|H2];
      [right; exact H2|].
    rewrite Hother in Hok; [discriminate|].
    unfold supported_transition. tauto.
  - intros [[-> ->]|[-> ->]]; reflexivity.
Qed.

Lemma transition_layout_closed_table_witness :
  ~ supported_transition ImageLayout.eGeneral ImageLayout.eUndefined
  /\ transition_layout zeroed ImageLayout.eGeneral ImageLayout.eUndefined
       (mkDevice 1 [] (fun _ => mkMemoryRequirements 0 0) [])
     = (Raise (runtime_error "Unsupported image layout transition!"),
        mkDevice 1 [] (fun _ => mkMemoryRequirements 0 0) []).
Proof.
  assert (H : ~ supported_transition ImageLayout.eGeneral ImageLayout.eUndefined).
  { unfold supported_transition. intros [[H _]|[H _]]; discriminate H. }
  split; [exact H|].
  apply (transition_layout_closed_table zeroed
           (mkDevice 1 [] (fun _ => mkMemoryRequirements 0 0) [])).
  exact H.
Defined.

(** ** Construction *)

(** Every way the constructor can end: the assertion, the depth check, the
    search for a memory type after the image exists, and success. *)
Lemma DeviceImage_new_cases
    (a_extent : Extent3D) (a_layer_count : Z) (aspect_mask : Flags)
    (a_format : Format) (tiling : ImageTiling.t) (usage : Flags)
    (sharing_mode : SharingMode.t) (sample_count : Flags)
    (memory_properties : Flags) (dev : Device) :
  let result :=
    DeviceImage_new a_extent a_layer_count aspect_mask a_format tiling usage
      sharing_mode sample_count memory_properties dev in
  let request :=
    creation_request a_extent a_layer_count a_format usage sharing_mode
      sample_count in
  let image := Z.pos (next_handle dev) in
  let mem := Z.pos (Pos.succ (next_handle dev)) in
  let created := log (EvCreateImage image request) (snd (fresh dev)) in
  (a_layer_count <= 0
   /\ result = (Raise (assertion_failure
                         "Failed to create DeviceImage: Invalid layer count!"),
                dev))
  \/ (0 < a_layer_count /\ depth a_extent < 1
      /\ result = (Raise (runtime_error
                            "Failed to create DeviceImage: Invalid depth!"),
                   dev))
  \/ (0 < a_layer_count /\ 1 <= depth a_extent
      /\ find_memory_type_from 0 (memoryTypes dev)
           (mr_memoryTypeBits (imageMemoryRequirements dev image))
           memory_properties = None
      /\ result = (Raise (fatal_error "Failed to find suitable memory type!"),
                   created))
  \/ (0 < a_layer_count /\ 1 <= depth a_extent
      /\ exists index,
           find_memory_type_from 0 (memoryTypes dev)
             (mr_memoryTypeBits (imageMemoryRequirements dev image))
             memory_properties = Some index
           /\ result =
              (Ok (mkDeviceImage image mem a_extent a_format
                     (mkImageSubresourceRange aspect_mask 0 1 0 a_layer_count)),
               log (EvBindImageMemory image mem 0)
                 (log (EvAllocateMemory mem
                         (mkMemoryAllocateInfo
                            (mr_size (imageMemoryRequirements dev image))
                            index))
                    (snd (fresh created))))).
Proof.
  intros result request image mem created.
  subst result request image mem created.
  unfold DeviceImage_new, creation_request. vk_unfold.
  destruct (Z.ltb_spec 0 a_layer_count) as [Hl|Hl];
    [|left; split; [lia|reflexivity]].
  right.
  destruct (Z.eqb_spec (depth a_extent) 1) as [H1|H1];
    [|destruct (Z.ltb_spec 1 (depth a_extent)) as [Hd|Hd]].
  3: { left. split; [lia|]. split; [lia|reflexivity]. }
  all: right; cbn;
    destruct (find_memory_type_from 0 (memoryTypes dev)
                (mr_memoryTypeBits
                   (imageMemoryRequirements dev (Z.pos (next_handle dev))))
                memory_properties) as [index|] eqn:Hfind.
  all: try (left; split; [lia|]; split; [lia|]; split; reflexivity).
  all: right; split; [lia|]; split; [lia|]; exists index; split; reflexivity.
Qed.

(** C4. With a layer count of 0 the constructor fails on its assertion,
    the precondition check that comes first; with a depth of 0, the layer
    count meeting that precondition, it raises the runtime error; and when
    it succeeds the image it asked the device for is 2-D exactly when the
    depth is 1 and 3-D exactly when the depth exceeds 1. *)
Theorem DeviceImage_new_checks
    (a_extent : Extent3D) (a_layer_count : Z) (aspect_mask : Flags)
    (a_format : Format) (tiling : ImageTiling.t) (usage : Flags)
    (sharing_mode : SharingMode.t) (sample_count : Flags)
    (memory_properties : Flags) (dev : Device) :
  let result :=
    DeviceImage_new a_extent a_layer_count aspect_mask a_format tiling usage
      sharing_mode sample_count memory_properties dev in
  (a_layer_count = 0 ->
   result = (Raise (assertion_failure
                      "Failed to create DeviceImage: Invalid layer count!"),
             dev))
  /\ (depth a_extent = 0 -> 0 < a_layer_count ->
      result = (Raise (runtime_error
                         "Failed to create DeviceImage: Invalid depth!"),
                dev))
  /\ (forall this dev', result = (Ok this, dev') ->
      exists request rest,
        events dev' = events dev ++ EvCreateImage (img this) request :: rest
        /\ (ici_imageType request = ImageType.e2D <-> depth a_extent = 1)
        /\ (ici_imageType request = ImageType.e3D <-> 1 < depth a_extent)).
Proof.
  intros result.
  pose proof (DeviceImage_new_cases a_extent a_layer_count aspect_mask a_format
                tiling usage sharing_mode sample_count memory_properties dev)
    as Hcases.
  cbv zeta in Hcases. fold result in Hcases.
  destruct Hcases as [[Hl Hr]|[(Hl & Hd & Hr)|[(Hl & Hd & Hf & Hr)|(Hl & Hd & index & Hf & Hr)]]];
    rewrite Hr; (split; [|split]); try (intros; (lia || discriminate)); try reflexivity.
  intros this dev' Heq. inversion Heq; subst this dev'. clear Heq.
  eexists. eexists. split; [cbn; rewrite <- !app_assoc; reflexivity|].
  unfold creation_request; cbn.
  destruct (Z.eqb_spec (depth a_extent) 1) as [H1|H1];
    split; split; intros; (lia || congruence || reflexivity).
Qed.

Lemma DeviceImage_new_checks_witness :
  (DeviceImage_new (mkExtent3D 4 4 1) 0 ImageAspectFlagBits.eColor 37
     ImageTiling.eOptimal 6 SharingMode.eExclusive 1 0x2 sample_device
   = (Raise (assertion_failure
               "Failed to create DeviceImage: Invalid layer count!"),
      sample_device))
  /\ (DeviceImage_new (mkExtent3D 4 4 0) 2 ImageAspectFlagBits.eColor 37
        ImageTiling.eOptimal 6 SharingMode.eExclusive 1 0x2 sample_device
      = (Raise (runtime_error "Failed to create DeviceImage: Invalid depth!"),
         sample_device))
  /\ (exists request rest,
        events (snd (DeviceImage_new (mkExtent3D 4 4 1) 2
                       ImageAspectFlagBits.eColor 37 ImageTiling.eOptimal 6
                       SharingMode.eExclusive 1 0x2 sample_device))
        = events sample_device ++ EvCreateImage 1 request :: rest
        /\ (ici_imageType request = ImageType.e2D <-> 1 = 1)
        /\ (ici_imageType request = ImageType.e3D <-> 1 < 1)).
Proof.
  split; [|split].
  - apply (DeviceImage_new_checks (mkExtent3D 4 4 1) 0). reflexivity.
  - apply (DeviceImage_new_checks (mkExtent3D 4 4 0) 2); reflexivity.
  - destruct (DeviceImage_new_checks (mkExtent3D 4 4 1) 2
                ImageAspectFlagBits.eColor 37 ImageTiling.eOptimal 6
                SharingMode.eExclusive 1 0x2 sample_device)
      as (_ & _ & Hsuccess).
    apply (Hsuccess
             (mkDeviceImage 1 2 (mkExtent3D 4 4 1) 37
                (mkImageSubresourceRange ImageAspectFlagBits.eColor 0 1 0 2))).
    reflexivity.
Defined.

(** C5. The tiling argument of the constructor has no effect: two calls
    that differ only in it are the same computation; whenever the
    constructor gets as far as creating the image (a positive layer count
    and a depth of at least 1), and so in every successful construction,
    the first call it adds to the log is the creation of the image with
    the extent, layer count, format, usage, sharing mode and sample count
    it was given and with optimal tiling; and no image creation it logs
    asks for another tiling. *)
Theorem DeviceImage_new_tiling_forced
    (a_extent : Extent3D) (a_layer_count : Z) (aspect_mask : Flags)
    (a_format : Format) (tiling tiling' : ImageTiling.t) (usage : Flags)
    (sharing_mode : SharingMode.t) (sample_count : Flags)
    (memory_properties : Flags) (dev : Device) :
  let result :=
    DeviceImage_new a_extent a_layer_count aspect_mask a_format tiling usage
      sharing_mode sample_count memory_properties dev in
  result
  = DeviceImage_new a_extent a_layer_count aspect_mask a_format tiling' usage
      sharing_mode sample_count memory_properties dev
  /\ Forall creates_optimal (added_events dev (snd result))
  /\ (0 < a_layer_count -> 1 <= depth a_extent ->
      exists request rest,
        added_events dev (snd result)
        = EvCreateImage (Z.pos (next_handle dev)) request :: rest
        /\ ici_tiling request = ImageTiling.eOptimal
        /\ ici_extent request = a_extent
        /\ ici_arrayLayers request = a_layer_count
        /\ ici_format request = a_format
        /\ ici_usage request = usage
        /\ ici_sharingMode request = sharing_mode
        /\ ici_samples request = sample_count)
  /\ (forall this dev',
        result = (Ok this, dev') ->
        exists request rest,
          added_events dev dev' = EvCreateImage (img this) request :: rest
          /\ ici_tiling request = ImageTiling.eOptimal).
Proof.
  intros result.
  split; [reflexivity|].
  pose proof (DeviceImage_new_cases a_extent a_layer_count aspect_mask a_format
                tiling usage sharing_mode sample_count memory_properties dev)
    as Hcases.
  cbv zeta in Hcases. fold result in Hcases.
  unfold added_events.
  destruct Hcases as [[Hl Hr]|[(Hl & Hd & Hr)|[(Hl & Hd & Hf & Hr)|(Hl & Hd & index & Hf & Hr)]]];
    rewrite Hr; cbn [snd log events fresh].
  - rewrite drop_all. split; [constructor|].
    split; [intros; lia|]. intros this dev' Heq. discriminate Heq.
  - rewrite drop_all. split; [constructor|].
    split; [intros; lia|]. intros this dev' Heq. discriminate Heq.
  - rewrite drop_app_length. split; [repeat constructor|].
    split; [|intros this dev' Heq; discriminate Heq].
    intros _ _. eexists. eexists. split; [reflexivity|].
    repeat split.
  - rewrite <- !app_assoc. rewrite drop_app_length.
    split; [repeat constructor|].
    split.
    + intros _ _. eexists. eexists. split; [reflexivity|]. repeat split.
    + intros this dev' Heq. inversion Heq; subst this dev'. clear Heq.
      cbn [events log fresh snd img]. rewrite <- !app_assoc.
      rewrite drop_app_length.
      eexists. eexists. split; [reflexivity|]. reflexivity.
Qed.

Lemma DeviceImage_new_tiling_forced_witness :
  0 < 2 /\ 1 <= depth (mkExtent3D 4 4 1)
  /\ (exists request rest,
        added_events sample_device
          (snd (DeviceImage_new (mkExtent3D 4 4 1) 2
                  ImageAspectFlagBits.eColor 37 ImageTiling.eLinear 6
                  SharingMode.eExclusive 1 0x2 sample_device))
        = EvCreateImage (Z.pos (next_handle sample_device)) request :: rest
        /\ ici_tiling request = ImageTiling.eOptimal
        /\ ici_extent request = mkExtent3D 4 4 1
        /\ ici_arrayLayers request = 2
        /\ ici_format request = 37
        /\ ici_usage request = 6
        /\ ici_sharingMode request = SharingMode.eExclusive
        /\ ici_samples request = 1)
  /\ DeviceImage_new (mkExtent3D 4 4 1) 2 ImageAspectFlagBits.eColor 37
       ImageTiling.eLinear 6 SharingMode.eExclusive 1 0x2 sample_device
     = (Ok (mkDeviceImage 1 2 (mkExtent3D 4 4 1) 37
              (mkImageSubresourceRange ImageAspectFlagBits.eColor 0 1 0 2)),
        snd (DeviceImage_new (mkExtent3D 4 4 1) 2 ImageAspectFlagBits.eColor 37
               ImageTiling.eLinear 6 SharingMode.eExclusive 1 0x2
               sample_device))
  /\ exists request rest,
       added_events sample_device
         (snd (DeviceImage_new (mkExtent3D 4 4 1) 2 ImageAspectFlagBits.eColor
                 37 ImageTiling.eLinear 6 SharingMode.eExclusive 1 0x2
                 sample_device))
       = EvCreateImage 1 request :: rest
       /\ ici_tiling request = ImageTiling.eOptimal.
Proof.
  assert (H1 : 0 < 2) by lia.
  assert (H2 : 1 <= depth (mkExtent3D 4 4 1)) by (cbn; lia).
  destruct (DeviceImage_new_tiling_forced (mkExtent3D 4 4 1) 2
              ImageAspectFlagBits.eColor 37 ImageTiling.eLinear
              ImageTiling.eOptimal 6 SharingMode.eExclusive 1 0x2
              sample_device) as (_ & _ & Hcreated & Hsuccess).
  split; [exact H1|]. split; [exact H2|].
  split; [exact (Hcreated H1 H2)|].
  split; [reflexivity|].
  apply (Hsuccess
           (mkDeviceImage 1 2 (mkExtent3D 4 4 1) 37
              (mkImageSubresourceRange ImageAspectFlagBits.eColor 0 1 0 2))).
  reflexivity.
Defined.

(** ** Teardown *)

Lemma after_no_events (dev : Device) : after_events dev [] = dev.
Proof. destruct dev. unfold after_events. cbn. rewrite app_nil_r. reflexivity. Qed.

Lemma destroy_releases (this : DeviceImage) (dev : Device) :
  destroy this dev = (Ok zeroed, after_events dev (releases this)).
Proof.
  unfold destroy, releases. vk_unfold.
  destruct (bool_decide (img this ≠ nullptr)),
           (bool_decide (memory this ≠ nullptr)); cbn;
    unfold after_events, log; cbn; rewrite <- ?app_assoc; try reflexivity.
  destruct dev; cbn. rewrite app_nil_r. reflexivity.
Qed.

Lemma destroy_null_handles (this : DeviceImage) (dev : Device) :
  img this = nullptr -> memory this = nullptr ->
  destroy this dev = (Ok zeroed, dev).
Proof.
  intros Himg Hmem. rewrite destroy_releases. unfold releases.
  rewrite Himg, Hmem. cbn. rewrite after_no_events. reflexivity.
Qed.

Lemma destroy_times_once (n : nat) (this : DeviceImage) (dev : Device) :
  destroy_times (S n) this dev = destroy this dev.
Proof.
  revert this dev. induction n as [|n IH]; intros this dev.
  - cbn. vk_unfold. destruct (destroy this dev) as [[d|e] dev']; reflexivity.
  - change (destroy_times (S (S n)) this dev)
      with ((this' ← destroy this ; destroy_times (S n) this') dev).
    unfold mbind, Vk_bind. rewrite destroy_releases.
    rewrite IH. apply destroy_null_handles; reflexivity.
Qed.

(** C7. [destroy] never fails and always leaves the zeroed object; it
    asks the device to release the image only when the handle is not null
    and to free the memory only when its handle is not null, once each;
    on an object whose handles are null (a moved-from one, the zeroed one)
    it asks nothing of the device; and destroying twice, or any number of
    times, is the same as destroying once. *)
Theorem destroy_idempotent_total (this : DeviceImage) (dev : Device) (n : nat) :
  destroy this dev = (Ok zeroed, after_events dev (releases this))
  /\ calls (is_destroyImage (img this)) (releases this)
     = (if bool_decide (img this ≠ nullptr) then 1%nat else 0%nat)
  /\ calls (is_freeMemory (memory this)) (releases this)
     = (if bool_decide (memory this ≠ nullptr) then 1%nat else 0%nat)
  /\ releases zeroed = []
  /\ releases (snd (DeviceImage_move this)) = []
  /\ (this' ← destroy this ; destroy this') dev = destroy this dev
  /\ destroy_times (S n) this dev = destroy this dev.
Proof.
  split; [apply destroy_releases|].
  split.
  { unfold calls, releases.
    destruct (bool_decide (img this ≠ nullptr)),
             (bool_decide (memory this ≠ nullptr)); cbn;
      rewrite ?bool_decide_eq_true_2 by reflexivity; reflexivity. }
  split.
  { unfold calls, releases.
    destruct (bool_decide (img this ≠ nullptr)),
             (bool_decide (memory this ≠ nullptr)); cbn;
      rewrite ?bool_decide_eq_true_2 by reflexivity; reflexivity. }
  split; [reflexivity|].
  split; [reflexivity|].
  split; [|apply destroy_times_once].
  unfold mbind, Vk_bind. rewrite destroy_releases.
  apply destroy_null_handles; reflexivity.
Qed.

(** ** Image views *)

(** C8. [CreateImageView] asks for a 2-D view when the layer count is 1
    and for a 2-D-array view when it is greater than 1, raises a runtime
    error when it is 0, and whenever it succeeds the view it asked for is
    2-D exactly when the layer count is 1, 2-D-array exactly when it is
    greater than 1, and covers mip level 0, one mip level, from array layer
    0; [create_img_view] is that function on the image's own fields. *)
Theorem CreateImageView_view_type (image : Handle) (aspect_mask : Flags)
    (a_format : Format) (a_layer_count : Z) (dev : Device) :
  let result := CreateImageView image aspect_mask a_format a_layer_count dev in
  let view := Z.pos (next_handle dev) in
  let range := mkImageSubresourceRange aspect_mask 0 1 0 a_layer_count in
  (a_layer_count = 1 ->
   result = (Ok view,
             log (EvCreateImageView view
                    (mkImageViewCreateInfo image ImageViewType.e2D a_format range))
               (snd (fresh dev))))
  /\ (1 < a_layer_count ->
      result = (Ok view,
                log (EvCreateImageView view
                       (mkImageViewCreateInfo image ImageViewType.e2DArray
                          a_format range))
                  (snd (fresh dev))))
  /\ (a_layer_count = 0 ->
      result = (Raise (runtime_error
                         "Failed to create Image View: Invalid layer count!"),
                dev))
  /\ (forall h dev', result = (Ok h, dev') ->
      exists info,
        events dev' = events dev ++ [EvCreateImageView h info]
        /\ (ivci_viewType info = ImageViewType.e2D <-> a_layer_count = 1)
        /\ (ivci_viewType info = ImageViewType.e2DArray <-> 1 < a_layer_count)
        /\ baseMipLevel (ivci_subresourceRange info) = 0
        /\ levelCount (ivci_subresourceRange info) = 1
        /\ baseArrayLayer (ivci_subresourceRange info) = 0)
  /\ (forall this,
        create_img_view this
        = CreateImageView (img this) (aspectMask (subresource_range this))
            (format this) (layerCount (subresource_range this))).
Proof.
  intros result view range. subst result view range.
  unfold CreateImageView. vk_unfold.
  destruct (Z.eqb_spec a_layer_count 1) as [H1|H1];
    [|destruct (Z.ltb_spec 1 a_layer_count) as [Hd|Hd]].
  all: repeat split; try (intros; (lia || discriminate || reflexivity)).
  all: intros h dev' Heq; inversion Heq; subst h dev'; clear Heq.
  all: eexists; split; [reflexivity|]; cbn.
  all: repeat split; intros; (lia || congruence || reflexivity).
Qed.

Lemma CreateImageView_view_type_witness :
  (CreateImageView 5 ImageAspectFlagBits.eColor 37 1 sample_device
   = (Ok 1,
      log (EvCreateImageView 1
             (mkImageViewCreateInfo 5 ImageViewType.e2D 37
                (mkImageSubresourceRange ImageAspectFlagBits.eColor 0 1 0 1)))
        (snd (fresh sample_device))))
  /\ (CreateImageView 5 ImageAspectFlagBits.eColor 37 6 sample_device
      = (Ok 1,
         log (EvCreateImageView 1
                (mkImageViewCreateInfo 5 ImageViewType.e2DArray 37
                   (mkImageSubresourceRange ImageAspectFlagBits.eColor 0 1 0 6)))
           (snd (fresh sample_device))))
  /\ (CreateImageView 5 ImageAspectFlagBits.eColor 37 0 sample_device
      = (Raise (runtime_error
                  "Failed to create Image View: Invalid layer count!"),
         sample_device)).
Proof.
  split; [|split].
  - destruct (CreateImageView_view_type 5 ImageAspectFlagBits.eColor 37 1
                sample_device) as (H & _).
    apply H. reflexivity.
  - destruct (CreateImageView_view_type 5 ImageAspectFlagBits.eColor 37 6
                sample_device) as (_ & H & _).
    apply H. reflexivity.
  - destruct (CreateImageView_view_type 5 ImageAspectFlagBits.eColor 37 0
                sample_device) as (_ & _ & H & _).
    apply H. reflexivity.
Defined.

(** ** Moves *)

Lemma put_same (objects : Objects) (a : Address) (d : DeviceImage) :
  put objects a d a = d.
Proof. unfold put. destruct (decide (a = a)); congruence. Qed.

Lemma put_other (objects : Objects) (a c : Address) (d : DeviceImage) :
  c <> a -> put objects a d c = objects c.
Proof. intros H. unfold put. destruct (decide (c = a)); congruence. Qed.

(** Move assignment, computed: the device sees the teardown of the
    destination, and the objects are updated field by field. *)
Lemma move_assign_result (this other : Address) (objects : Objects)
    (dev : Device) :
  exists objects',
    move_assign this other objects dev
    = (Ok objects', after_events dev (releases (objects this)))
    /\ (forall c, c <> this -> c <> other -> objects' c = objects c)
    /\ (this <> other ->
        objects' this = fst (DeviceImage_move (objects other))
        /\ objects' other = snd (DeviceImage_move (objects other)))
    /\ (this = other -> objects' this = zeroed).
Proof.
  unfold move_assign. unfold mbind, Vk_bind. rewrite destroy_releases.
  eexists. split; [reflexivity|].
  split; [|split].
  - intros c Hthis Hother. rewrite !put_other by assumption. reflexivity.
  - intros Hne. unfold put.
    destruct (decide (this = this)) as [_|Hx]; [|congruence].
    destruct (decide (other = other)) as [_|Hx]; [|congruence].
    destruct (decide (this = other)) as [Hx|_]; [congruence|].
    destruct (decide (other = this)) as [Hx|_]; [congruence|].
    split; reflexivity.
  - intros <-. unfold put.
    destruct (decide (this = this)) as [_|Hx]; [|congruence].
    reflexivity.
Qed.

(** C6. The move constructor gives the new object the handle, the memory,
    the extent, the format and the subresource range of its source and
    leaves the source with a null handle and null memory, so that
    destroying the source afterwards asks nothing of the device; move
    assignment first tears the destination down as [destroy] does and then
    leaves destination and source as the move constructor would leave them,
    touching no other object.  (When both references designate one object,
    the source of the transfer is that object once torn down.) *)
Theorem move_transfers_ownership (source : DeviceImage) (dev : Device) :
  img (fst (DeviceImage_move source)) = img source
  /\ memory (fst (DeviceImage_move source)) = memory source
  /\ extent (fst (DeviceImage_move source)) = extent source
  /\ format (fst (DeviceImage_move source)) = format source
  /\ subresource_range (fst (DeviceImage_move source)) = subresource_range source
  /\ img (snd (DeviceImage_move source)) = nullptr
  /\ memory (snd (DeviceImage_move source)) = nullptr
  /\ destroy (snd (DeviceImage_move source)) dev = (Ok zeroed, dev)
  /\ (forall (this other : Address) (objects : Objects),
        exists objects',
          move_assign this other objects dev
          = (Ok objects', snd (destroy (objects this) dev))
          /\ objects' this
             = fst (DeviceImage_move (put objects this zeroed other))
          /\ objects' other
             = snd (DeviceImage_move (put objects this zeroed other))
          /\ (forall c, c <> this -> c <> other -> objects' c = objects c))
  /\ (forall (this other : Address) (objects : Objects),
        this <> other -> objects other = source ->
        exists objects',
          move_assign this other objects dev
          = (Ok objects', snd (destroy (objects this) dev))
          /\ objects' this = fst (DeviceImage_move source)
          /\ objects' other = snd (DeviceImage_move source)
          /\ (forall c, c <> this -> c <> other -> objects' c = objects c)).
Proof.
  do 7 (split; [reflexivity|]).
  split; [apply destroy_null_handles; reflexivity|].
  split.
  - intros this other objects.
    destruct (move_assign_result this other objects dev)
      as (objects' & Hrun & Hrest & Hdistinct & Hself).
    exists objects'. rewrite destroy_releases. cbn [snd].
    split; [exact Hrun|].
    destruct (decide (this = other)) as [Heq|Hne].
    + subst other. rewrite (Hself eq_refl), put_same.
      split; [reflexivity|]. split; [reflexivity|exact Hrest].
    + destruct (Hdistinct Hne) as [Hthis Hother].
      rewrite put_other by congruence. auto.
  - intros this other objects Hne Hsource.
    destruct (move_assign_result this other objects dev)
      as (objects' & Hrun & Hrest & Hdistinct & _).
    exists objects'. rewrite destroy_releases. cbn [snd].
    destruct (Hdistinct Hne) as [Hthis Hother].
    rewrite Hsource in Hthis, Hother. auto.
Qed.

Lemma move_transfers_ownership_witness :
  (0 <> 1)%nat
  /\ exists objects',
       move_assign 0%nat 1%nat sample_objects sample_device
       = (Ok objects', snd (destroy (sample_objects 0%nat) sample_device))
       /\ objects' 0%nat = fst (DeviceImage_move (sample_objects 1%nat))
       /\ objects' 1%nat = snd (DeviceImage_move (sample_objects 1%nat))
       /\ (forall c, c <> 0%nat -> c <> 1%nat -> objects' c = sample_objects c).
Proof.
  split; [discriminate|].
  destruct (move_transfers_ownership (sample_objects 1%nat) sample_device)
    as (_ & _ & _ & _ & _ & _ & _ & _ & _ & Hassign).
  apply Hassign; [discriminate|reflexivity].
Defined.

(** ** The pairing of handle and memory *)



(** ** Copies *)

Lemma u32_add_succ (k : nat) :
  Z.of_nat (S k) < u32_modulus -> u32_add (Z.of_nat k) 1 = Z.of_nat (S k).
Proof.
  intros H. unfold u32_add. rewrite u32_small; [lia|].
  unfold is_u32. lia.
Qed.

(** A counting loop that rewrites [regions[i]] in place: inside the range
    of the loop every element is rewritten by the body, outside it nothing
    changes. *)
Lemma for_count_alter {A : Type} (f : Z -> A -> A) (count : nat) :
  forall (k : nat) (l : list A) (j : nat),
    Z.of_nat (k + count) < u32_modulus ->
    for_count count (Z.of_nat k)
      (fun i regions => alter (f i) (Z.to_nat i) regions) l !! j
    = if decide (k <= j < k + count)%nat
      then f (Z.of_nat j) <$> l !! j
      else l !! j.
Proof.
  induction count as [|count IH]; intros k l j Hrange.
  - cbn. destruct (decide (k <= j < k + 0)%nat); [lia|reflexivity].
  - cbn [for_count]. rewrite u32_add_succ by lia.
    rewrite IH by lia. rewrite Nat2Z.id.
    destruct (decide (j = k)) as [->|Hjk].
    + rewrite list_lookup_alter_eq.
      destruct (decide (S k <= k < S k + count)%nat); [lia|].
      destruct (decide (k <= k < k + S count)%nat); [reflexivity|lia].
    + rewrite list_lookup_alter_ne by congruence.
      destruct (decide (S k <= j < S k + count)%nat),
               (decide (k <= j < k + S count)%nat); (reflexivity || lia).
Qed.

Lemma for_count_alter_length {A : Type} (f : Z -> A -> A) (count : nat) :
  forall (i : Z) (l : list A),
    length (for_count count i
              (fun i regions => alter (f i) (Z.to_nat i) regions) l)
    = length l.
Proof.
  induction count as [|count IH]; intros i l; cbn; [reflexivity|].
  rewrite IH. apply length_alter.
Qed.

(** The regions [copy_all_from_buffer] builds, one by one. *)
Lemma copy_all_regions_length (this : DeviceImage) (starting_layer : Z) :
  length (copy_all_regions this starting_layer)
  = Z.to_nat (u32_sub (layer_count this) starting_layer).
Proof.
  unfold copy_all_regions, for_u32, ArrayVector.
  rewrite for_count_alter_length. apply length_replicate.
Qed.

Lemma copy_all_regions_lookup (this : DeviceImage) (starting_layer i : Z) :
  0 <= i < u32_sub (layer_count this) starting_layer ->
  copy_all_regions this starting_layer !! Z.to_nat i
  = Some (fill_region this starting_layer i BufferImageCopy_default).
Proof.
  intros Hi.
  pose proof (u32_range (layer_count this - starting_layer)) as Hsize.
  fold (u32_sub (layer_count this) starting_layer) in Hsize.
  unfold is_u32 in Hsize.
  unfold copy_all_regions, for_u32, ArrayVector.
  rewrite length_replicate, Z.sub_0_r, Nat2Z.id.
  rewrite (for_count_alter _ _ 0%nat) by (cbn; lia).
  destruct (decide (0 <= Z.to_nat i
                    < 0 + Z.to_nat (u32_sub (layer_count this) starting_layer))%nat)
    as [_|Hout]; [|lia].
  rewrite lookup_replicate_2 by lia. cbn. rewrite Z2Nat.id by lia.
  reflexivity.
Qed.

(** The byte offset of a region is the product reduced modulo 2^32: every
    multiplication is done on 32 bits, and the widening to 64 bits comes
    last. *)
Lemma region_offset_wraps (i w h : Z) :
  u64 (u32_mul (u32_mul (u32_mul i w) h) 4) = (i * w * h * 4) mod u32_modulus.
Proof.
  unfold u32_mul, u32.
  assert (Hm : u32_modulus <> 0) by (unfold u32_modulus; lia).
  rewrite (Z.mul_mod_idemp_l (i * w) h) by exact Hm.
  rewrite (Z.mul_mod_idemp_l (i * w * h) 4) by exact Hm.
  unfold u64. apply Z.mod_small.
  pose proof (Z.mod_pos_bound (i * w * h * 4) u32_modulus) as Hb.
  unfold u32_modulus, u64_modulus in *. lia.
Qed.

(** C10. In [copy_all_from_buffer] the byte offset of region [i] is
    computed on 32 bits before it is widened: whenever the product
    [i * width * height * 4] reaches 2^32 the offset stored in the region
    is that product modulo 2^32, and differs from the product. *)
Theorem copy_all_offset_truncated (this : DeviceImage)
    (starting_layer i : Z) :
  0 <= i < u32_sub (layer_count this) starting_layer ->
  u32_modulus <= i * DeviceImage_width this * DeviceImage_height this * 4 ->
  exists region,
    copy_all_regions this starting_layer !! Z.to_nat i = Some region
    /\ bufferOffset region
       = (i * DeviceImage_width this * DeviceImage_height this * 4)
           mod u32_modulus
    /\ bufferOffset region
       <> i * DeviceImage_width this * DeviceImage_height this * 4.
Proof.
  intros Hi Hbig.
  exists (fill_region this starting_layer i BufferImageCopy_default).
  split; [apply copy_all_regions_lookup; exact Hi|].
  cbn [fill_region bufferOffset]. rewrite region_offset_wraps.
  split; [reflexivity|].
  pose proof (Z.mod_pos_bound
                (i * DeviceImage_width this * DeviceImage_height this * 4)
                u32_modulus) as Hb.
  unfold u32_modulus in *. lia.
Qed.

Lemma copy_all_offset_truncated_witness :
  0 <= 4 < u32_sub (layer_count large_image) 0
  /\ u32_modulus
     <= 4 * DeviceImage_width large_image * DeviceImage_height large_image * 4
  /\ exists region,
       copy_all_regions large_image 0 !! Z.to_nat 4 = Some region
       /\ bufferOffset region
          = (4 * DeviceImage_width large_image
               * DeviceImage_height large_image * 4) mod u32_modulus
       /\ bufferOffset region
          <> 4 * DeviceImage_width large_image
               * DeviceImage_height large_image * 4.
Proof.
  assert (H1 : 0 <= 4 < u32_sub (layer_count large_image) 0)
    by (vm_compute; split; [discriminate|reflexivity]).
  assert (H2 : u32_modulus
               <= 4 * DeviceImage_width large_image
                    * DeviceImage_height large_image * 4)
    by (vm_compute; discriminate).
  split; [exact H1|]. split; [exact H2|].
  exact (copy_all_offset_truncated large_image 0 4 H1 H2).
Defined.

(** C2 as the design document words it does not hold: the byte offset of
    a region counts from the first region copied, not from layer 0.
    Copying the layers of [small_image] from layer 1 on, the region that
    addresses layer 1 has offset 0, not [1 * 2 * 2 * 4]. *)
Lemma copy_all_offset_not_by_layer :
  exists region,
    copy_all_regions small_image 1 !! 0%nat = Some region
    /\ isl_baseArrayLayer (imageSubresource region) = 1
    /\ bufferOffset region = 0
    /\ bufferOffset region
       <> isl_baseArrayLayer (imageSubresource region)
          * DeviceImage_width small_image * DeviceImage_height small_image * 4.
Proof.
  eexists. split; [reflexivity|]. cbn.
  split; [reflexivity|]. split; [reflexivity|]. discriminate.
Qed.

(** C2, as the code has it.  For a starting layer not above the layer
    count, [copy_all_from_buffer] submits one recording holding one copy
    command with [layer_count - starting_layer] regions; region [i]
    addresses the single array layer [starting_layer + i] of mip level 0,
    with the color aspect and the extent (width, height, 1) whatever the
    aspect mask of the image, and its byte offset is
    [i * width * height * 4], counted from the first region copied, as long
    as that product fits in 32 bits. *)
Theorem copy_all_from_buffer_regions (this : DeviceImage) (buffer : Handle)
    (starting_layer : Z) (dev : Device) :
  is_u32 (layer_count this) -> is_u32 starting_layer ->
  starting_layer <= layer_count this ->
  copy_all_from_buffer this buffer starting_layer dev
  = (Ok tt,
     log (EvSubmit
            [copyBufferToImage buffer (img this)
               ImageLayout.eTransferDstOptimal
               (copy_all_regions this starting_layer)]) dev)
  /\ length (copy_all_regions this starting_layer)
     = Z.to_nat (layer_count this - starting_layer)
  /\ (forall i, 0 <= i < layer_count this - starting_layer ->
      exists region,
        copy_all_regions this starting_layer !! Z.to_nat i = Some region
        /\ isl_baseArrayLayer (imageSubresource region) = starting_layer + i
        /\ isl_layerCount (imageSubresource region) = 1
        /\ isl_mipLevel (imageSubresource region) = 0
        /\ isl_aspectMask (imageSubresource region)
           = ImageAspectFlagBits.eColor
        /\ imageExtent region
           = mkExtent3D (DeviceImage_width this) (DeviceImage_height this) 1
        /\ (0 <= i * DeviceImage_width this * DeviceImage_height this * 4
              < u32_modulus ->
            bufferOffset region
            = i * DeviceImage_width this * DeviceImage_height this * 4)).
Proof.
  intros HN Hs Hle.
  assert (Hsize : u32_sub (layer_count this) starting_layer
                  = layer_count this - starting_layer).
  { unfold u32_sub. apply u32_small. unfold is_u32 in *. lia. }
  split; [reflexivity|].
  split; [rewrite copy_all_regions_length, Hsize; reflexivity|].
  intros i Hi.
  exists (fill_region this starting_layer i BufferImageCopy_default).
  split; [apply copy_all_regions_lookup; rewrite Hsize; exact Hi|].
  cbn.
  split.
  { unfold u32_add. rewrite u32_small; [lia|]. unfold is_u32 in *. lia. }
  do 4 (split; [reflexivity|]).
  intros Hfit. rewrite region_offset_wraps. apply Z.mod_small. exact Hfit.
Qed.

Lemma copy_all_from_buffer_regions_witness :
  is_u32 (layer_count small_image) /\ is_u32 1
  /\ 1 <= layer_count small_image
  /\ length (copy_all_regions small_image 1)
     = Z.to_nat (layer_count small_image - 1)
  /\ exists region,
       copy_all_regions small_image 1 !! Z.to_nat 1 = Some region
       /\ isl_baseArrayLayer (imageSubresource region) = 1 + 1
       /\ bufferOffset region
          = 1 * DeviceImage_width small_image
              * DeviceImage_height small_image * 4.
Proof.
  assert (H1 : is_u32 (layer_count small_image))
    by (vm_compute; split; [discriminate|reflexivity]).
  assert (H2 : is_u32 1) by (vm_compute; split; [discriminate|reflexivity]).
  assert (H3 : 1 <= layer_count small_image) by (vm_compute; discriminate).
  split; [exact H1|]. split; [exact H2|]. split; [exact H3|].
  destruct (copy_all_from_buffer_regions small_image 9 1 sample_device
              H1 H2 H3) as (_ & Hlen & Hregions).
  split; [exact Hlen|].
  destruct (Hregions 1) as (region & Hlook & Hlayer & _ & _ & _ & _ & Hoff).
  { vm_compute. split; [discriminate|reflexivity]. }
  exists region. split; [exact Hlook|]. split; [exact Hlayer|].
  apply Hoff. vm_compute. split; [discriminate|reflexivity].
Defined.

Lemma layer_copies_base (this : DeviceImage) (region : BufferImageCopy)
    (base : Z) (sources : list Handle) :
  forall layer,
    layer_copies this (with_baseArrayLayer region base) layer sources
    = layer_copies this region layer sources.
Proof.
  induction sources as [|buffer rest IH]; intros layer; cbn; [reflexivity|].
  rewrite IH. reflexivity.
Qed.

Lemma copy_from_buffers_body_in_bounds (this : DeviceImage)
    (buffers : list Handle) (k : nat) (buffer : Handle)
    (region : BufferImageCopy) (cmd_buffer : CommandBuffer) :
  buffers !! k = Some buffer ->
  copy_from_buffers_body this buffers (Z.of_nat k) (region, cmd_buffer)
  = Ok (with_baseArrayLayer region (Z.of_nat k),
        record cmd_buffer
          (copyBufferToImage buffer (img this)
             ImageLayout.eTransferDstOptimal
             [with_baseArrayLayer region (Z.of_nat k)])).
Proof.
  intros Hbuffer. unfold copy_from_buffers_body.
  rewrite Nat2Z.id, Hbuffer. reflexivity.
Qed.

Lemma copy_from_buffers_loop (this : DeviceImage) (buffers : list Handle)
    (count : nat) :
  forall (k : nat) (region : BufferImageCopy) (cmd_buffer : CommandBuffer),
    (k + count <= length buffers)%nat ->
    Z.of_nat (k + count) < u32_modulus ->
    exists region',
      for_count_try count (Z.of_nat k)
        (copy_from_buffers_body this buffers) (region, cmd_buffer)
      = Ok (region',
            cmd_buffer
            ++ layer_copies this region (Z.of_nat k)
                 (take count (drop k buffers))).
Proof.
  induction count as [|count IH]; intros k region cmd_buffer Hlen Hrange.
  - exists region. cbn. rewrite app_nil_r. reflexivity.
  - destruct (lookup_lt_is_Some_2 buffers k) as [buffer Hbuffer]; [lia|].
    cbn [for_count_try].
    rewrite (copy_from_buffers_body_in_bounds this buffers k buffer)
      by exact Hbuffer.
    rewrite u32_add_succ by lia.
    destruct (IH (S k) (with_baseArrayLayer region (Z.of_nat k))
                (record cmd_buffer
                   (copyBufferToImage buffer (img this)
                      ImageLayout.eTransferDstOptimal
                      [with_baseArrayLayer region (Z.of_nat k)])))
      as [region' Hrun]; [lia..|].
    exists region'. rewrite Hrun. f_equal. f_equal.
    rewrite (drop_S buffers buffer k Hbuffer). cbn [take layer_copies].
    rewrite layer_copies_base. unfold record, layer_copy.
    rewrite <- app_assoc. cbn. do 3 f_equal. lia.
Qed.

(** What [copy_from_buffers] does when its reads are in bounds and
    [starting_layer + buffer_count] fits in 32 bits: the buffers it copies
    are those at positions [starting_layer], [starting_layer + 1], ... of
    the array, each into the layer of the same index. *)
Lemma copy_from_buffers_in_bounds (this : DeviceImage)
    (buffers : list Handle) (buffer_count starting_layer : Z) (dev : Device) :
  0 <= starting_layer -> 0 <= buffer_count ->
  starting_layer + buffer_count < u32_modulus ->
  starting_layer + buffer_count <= Z.of_nat (length buffers) ->
  copy_from_buffers this buffers buffer_count starting_layer dev
  = (Ok tt,
     log (EvSubmit
            (layer_copies this (first_region this) starting_layer
               (take (Z.to_nat buffer_count)
                  (drop (Z.to_nat starting_layer) buffers)))) dev).
Proof.
  intros Hs Hk Hfit Hlen.
  unfold copy_from_buffers. vk_unfold. unfold for_u32_try.
  assert (Hbound : u32_add starting_layer buffer_count
                   = starting_layer + buffer_count).
  { unfold u32_add. apply u32_small. unfold is_u32. lia. }
  rewrite Hbound.
  replace (starting_layer + buffer_count - starting_layer)
    with buffer_count by lia.
  destruct (copy_from_buffers_loop this buffers (Z.to_nat buffer_count)
              (Z.to_nat starting_layer) (first_region this) [])
    as [region' Hrun]; [lia..|].
  rewrite Z2Nat.id in Hrun by lia.
  fold (first_region this). rewrite Hrun. reflexivity.
Qed.

(** C1 on concrete data.  Asked to copy 2 buffers starting at layer 1,
    [copy_from_buffers] reads the array at positions 1 and 2: given three
    buffers it copies the second and the third (not the first and the
    second) into layers 1 and 2, and given exactly the two buffers it was
    told about it reads past the end of the array. *)
Theorem copy_from_buffers_indexes_by_layer :
  copy_from_buffers small_image [10; 11; 12] 2 1 sample_device
  = (Ok tt,
     log (EvSubmit
            [layer_copy small_image (first_region small_image) 1 11;
             layer_copy small_image (first_region small_image) 2 12])
       sample_device)
  /\ copy_from_buffers small_image [10; 11] 2 1 sample_device
     = (Raise out_of_bounds_read, sample_device)
  /\ copy_from_buffers small_image [10; 11] 2 0 sample_device
     = (Ok tt,
        log (EvSubmit
               [layer_copy small_image (first_region small_image) 0 10;
                layer_copy small_image (first_region small_image) 1 11])
          sample_device).
Proof. repeat split; reflexivity. Qed.

(** ** Format selection *)

Lemma FindSupportedFormat_step (physical_device : PhysicalDevice)
    (format : Format) (rest : list Format) (tiling : ImageTiling.t)
    (features : Flags) :
  (supports physical_device tiling features format
   /\ FindSupportedFormat physical_device (format :: rest) tiling features
      = format)
  \/ (~ supports physical_device tiling features format
      /\ FindSupportedFormat physical_device (format :: rest) tiling features
         = FindSupportedFormat physical_device rest tiling features).
Proof.
  unfold supports, tiling_features. cbn [FindSupportedFormat].
  destruct tiling; cbn.
  - destruct (Z.eqb_spec
                (Z.land (optimalTilingFeatures (physical_device format)) features)
                features) as [H|H]; [left|right]; split; auto.
  - destruct (Z.eqb_spec
                (Z.land (linearTilingFeatures (physical_device format)) features)
                features) as [H|H]; [left|right]; split; auto.
  - right. split; [intros H; exact H|reflexivity].
Qed.

(** X1. [FindSupportedFormat] returns the first candidate, in list order,
    whose features for the requested tiling include every required one;
    when no candidate does, it returns the undefined format. *)
Theorem FindSupportedFormat_first_match (physical_device : PhysicalDevice)
    (candidates : list Format) (tiling : ImageTiling.t) (features : Flags) :
  (Forall (fun format => ~ supports physical_device tiling features format)
     candidates
   /\ FindSupportedFormat physical_device candidates tiling features
      = Format_eUndefined)
  \/ (exists before after,
        candidates
        = before
          ++ FindSupportedFormat physical_device candidates tiling features
          :: after
        /\ Forall (fun format => ~ supports physical_device tiling features format)
             before
        /\ supports physical_device tiling features
             (FindSupportedFormat physical_device candidates tiling features)).
Proof.
  induction candidates as [|format rest IH].
  - left. split; [constructor|reflexivity].
  - destruct (FindSupportedFormat_step physical_device format rest tiling
                features) as [[Hyes Heq]|[Hno Heq]]; rewrite Heq.
    + right. exists [], rest. split; [reflexivity|]. split; [constructor|exact Hyes].
    + destruct IH as [[Hall Hund]|(before & after & Hsplit & Hbefore & Hyes)].
      * left. split; [constructor; assumption|exact Hund].
      * right. exists (format :: before), after.
        split; [cbn; rewrite <- Hsplit; reflexivity|].
        split; [constructor; assumption|exact Hyes].
Qed.

(** X2. The candidates are searched in order across a concatenation: when
    some candidate of the first list is supported the second list is never
    consulted, and when none is the result is that of the second list. *)
Theorem FindSupportedFormat_app (physical_device : PhysicalDevice)
    (first second : list Format) (tiling : ImageTiling.t) (features : Flags) :
  (Exists (supports physical_device tiling features) first ->
   FindSupportedFormat physical_device (first ++ second) tiling features
   = FindSupportedFormat physical_device first tiling features)
  /\ (Forall (fun format => ~ supports physical_device tiling features format)
        first ->
      FindSupportedFormat physical_device (first ++ second) tiling features
      = FindSupportedFormat physical_device second tiling features).
Proof.
  induction first as [|format rest [IHyes IHno]].
  - split; [intros H; inversion H|reflexivity].
  - change ((format :: rest) ++ second) with (format :: (rest ++ second)).
    destruct (FindSupportedFormat_step physical_device format rest tiling
                features) as [[Hyes Heq]|[Hno Heq]];
      destruct (FindSupportedFormat_step physical_device format
                  (rest ++ second) tiling features) as [[Hyes' Heq']|[Hno' Heq']];
      try contradiction; rewrite Heq, Heq'.
    + split; [reflexivity|]. intros Hall. inversion Hall; contradiction.
    + split.
      * intros Hex. inversion Hex; [contradiction|]. apply IHyes. assumption.
      * intros Hall. inversion Hall. apply IHno. assumption.
Qed.

Lemma FindSupportedFormat_app_witness :
  Exists (supports sample_physical_device ImageTiling.eOptimal 0x3) [44; 37]
  /\ FindSupportedFormat sample_physical_device ([44; 37] ++ [50])
       ImageTiling.eOptimal 0x3
     = FindSupportedFormat sample_physical_device [44; 37]
         ImageTiling.eOptimal 0x3
  /\ Forall (fun format =>
               ~ supports sample_physical_device ImageTiling.eOptimal 0x3 format)
       [44; 50]
  /\ FindSupportedFormat sample_physical_device ([44; 50] ++ [37])
       ImageTiling.eOptimal 0x3
     = FindSupportedFormat sample_physical_device [37]
         ImageTiling.eOptimal 0x3.
Proof.
  assert (H1 : Exists (supports sample_physical_device ImageTiling.eOptimal 0x3)
                 [44; 37]).
  { apply Exists_cons_tl. apply Exists_cons_hd. reflexivity. }
  assert (H2 : Forall (fun format =>
                         ~ supports sample_physical_device
                             ImageTiling.eOptimal 0x3 format) [44; 50]).
  { repeat constructor; intros H; discriminate H. }
  split; [exact H1|].
  split; [apply (FindSupportedFormat_app sample_physical_device [44; 37] [50]);
          exact H1|].
  split; [exact H2|].
  apply (FindSupportedFormat_app sample_physical_device [44; 50] [37]).
  exact H2.
Defined.

(** X3. With no required feature every format qualifies under linear and
    under optimal tiling: the first candidate is returned whatever the
    device reports.  Under any other tiling no candidate ever qualifies:
    the undefined format is returned, whatever the candidates, the
    required features and the device. *)
Theorem FindSupportedFormat_no_requirement (physical_device : PhysicalDevice)
    (format : Format) (rest : list Format) (features : Flags) :
  FindSupportedFormat physical_device (format :: rest) ImageTiling.eLinear 0
  = format
  /\ FindSupportedFormat physical_device (format :: rest)
       ImageTiling.eOptimal 0
     = format
  /\ FindSupportedFormat physical_device (format :: rest)
       ImageTiling.eDrmFormatModifierEXT features
     = Format_eUndefined.
Proof.
  split; [|split].
  - destruct (FindSupportedFormat_step physical_device format rest
                ImageTiling.eLinear 0) as [[_ Heq]|[Hno _]]; [exact Heq|].
    exfalso. apply Hno. unfold supports. cbn. apply Z.land_0_r.
  - destruct (FindSupportedFormat_step physical_device format rest
                ImageTiling.eOptimal 0) as [[_ Heq]|[Hno _]]; [exact Heq|].
    exfalso. apply Hno. unfold supports. cbn. apply Z.land_0_r.
  - revert format. induction rest as [|next rest IH]; intros format.
    + reflexivity.
    + change (FindSupportedFormat physical_device (format :: next :: rest)
                ImageTiling.eDrmFormatModifierEXT features)
        with (FindSupportedFormat physical_device (next :: rest)
                ImageTiling.eDrmFormatModifierEXT features).
      apply IH.
Qed.

(** ** More on the copies *)

Lemma layer_copies_length (this : DeviceImage) (region : BufferImageCopy)
    (sources : list Handle) :
  forall layer, length (layer_copies this region layer sources) = length sources.
Proof.
  induction sources as [|buffer rest IH]; intros layer; cbn; [reflexivity|].
  rewrite IH. reflexivity.
Qed.

Lemma layer_copies_lookup (this : DeviceImage) (region : BufferImageCopy)
    (sources : list Handle) :
  forall (layer : Z) (j : nat) (buffer : Handle),
    sources !! j = Some buffer ->
    layer_copies this region layer sources !! j
    = Some (layer_copy this region (layer + Z.of_nat j) buffer).
Proof.
  induction sources as [|first rest IH]; intros layer j buffer Hj.
  - discriminate Hj.
  - destruct j as [|j].
    + inversion Hj. cbn. rewrite Z.add_0_r. reflexivity.
    + change (layer_copies this region (layer + 1) rest !! j
              = Some (layer_copy this region (layer + Z.of_nat (S j)) buffer)).
      change (rest !! j = Some buffer) in Hj.
      rewrite (IH (layer + 1) j buffer Hj). do 2 f_equal. lia.
Qed.

(** X4. When [starting_layer + buffer_count] fits in 32 bits and the array
    holds at least that many buffers, [copy_from_buffers] submits one
    recording of exactly [buffer_count] copy commands, and command [j]
    copies the buffer at position [starting_layer + j] of the array into
    the single layer [starting_layer + j], with the image's own aspect mask
    and extent. *)
Theorem copy_from_buffers_commands (this : DeviceImage)
    (buffers : list Handle) (buffer_count starting_layer : Z) (dev : Device) :
  0 <= starting_layer -> 0 <= buffer_count ->
  starting_layer + buffer_count < u32_modulus ->
  starting_layer + buffer_count <= Z.of_nat (length buffers) ->
  exists cmds,
    copy_from_buffers this buffers buffer_count starting_layer dev
    = (Ok tt, log (EvSubmit cmds) dev)
    /\ length cmds = Z.to_nat buffer_count
    /\ (forall j, 0 <= j < buffer_count ->
        exists buffer,
          buffers !! Z.to_nat (starting_layer + j) = Some buffer
          /\ cmds !! Z.to_nat j
             = Some (copyBufferToImage buffer (img this)
                       ImageLayout.eTransferDstOptimal
                       [mkBufferImageCopy 0 0 0
                          (mkImageSubresourceLayers
                             (aspectMask (subresource_range this)) 0
                             (starting_layer + j) 1)
                          (mkOffset3D 0 0 0) (extent this)])).
Proof.
  intros Hs Hk Hfit Hlen.
  eexists. split; [apply copy_from_buffers_in_bounds; assumption|].
  split.
  - rewrite layer_copies_length, length_take, length_drop. lia.
  - intros j Hj.
    destruct (lookup_lt_is_Some_2 buffers (Z.to_nat (starting_layer + j)))
      as [buffer Hbuffer]; [lia|].
    exists buffer. split; [exact Hbuffer|].
    rewrite (layer_copies_lookup _ _ _ _ _ buffer).
    + rewrite Z2Nat.id by lia. reflexivity.
    + rewrite lookup_take_lt by lia. rewrite lookup_drop.
      rewrite <- Z2Nat.inj_add by lia. exact Hbuffer.
Qed.

Lemma copy_from_buffers_commands_witness :
  0 <= 1 /\ 0 <= 2 /\ 1 + 2 < u32_modulus
  /\ 1 + 2 <= Z.of_nat (length [10; 11; 12])
  /\ exists cmds,
       copy_from_buffers small_image [10; 11; 12] 2 1 sample_device
       = (Ok tt, log (EvSubmit cmds) sample_device)
       /\ length cmds = Z.to_nat 2.
Proof.
  assert (H1 : 0 <= 1) by lia.
  assert (H2 : 0 <= 2) by lia.
  assert (H3 : 1 + 2 < u32_modulus) by (unfold u32_modulus; lia).
  assert (H4 : 1 + 2 <= Z.of_nat (length [10; 11; 12])) by (cbn; lia).
  do 4 (split; [assumption|]).
  destruct (copy_from_buffers_commands small_image [10; 11; 12] 2 1
              sample_device H1 H2 H3 H4) as (cmds & Hrun & Hlen & _).
  exists cmds. split; assumption.
Defined.

Lemma copy_from_buffers_loop_out_of_bounds (this : DeviceImage)
    (buffers : list Handle) (count : nat) :
  forall (k : nat) (region : BufferImageCopy) (cmd_buffer : CommandBuffer),
    (0 < count)%nat ->
    (length buffers < k + count)%nat ->
    Z.of_nat (k + count) < u32_modulus ->
    for_count_try count (Z.of_nat k)
      (copy_from_buffers_body this buffers) (region, cmd_buffer)
    = Raise out_of_bounds_read.
Proof.
  induction count as [|count IH]; intros k region cmd_buffer Hpos Hlen Hrange;
    [lia|].
  cbn [for_count_try].
  destruct (buffers !! k) as [buffer|] eqn:Hbuffer.
  - rewrite (copy_from_buffers_body_in_bounds this buffers k buffer)
      by exact Hbuffer.
    rewrite u32_add_succ by lia.
    pose proof (lookup_lt_Some _ _ _ Hbuffer) as Hk.
    apply IH; lia.
  - unfold copy_from_buffers_body. rewrite Nat2Z.id, Hbuffer. reflexivity.
Qed.

(** X5. When the array holds fewer than [starting_layer + buffer_count]
    buffers (the sum fitting in 32 bits, the count positive), the loop of
    [copy_from_buffers] reaches a read past the end of the array; in
    particular an array of exactly [buffer_count] buffers is overrun for
    every positive starting layer.  Nothing is said of what the program
    does after that read. *)
Theorem copy_from_buffers_overrun (this : DeviceImage)
    (buffers : list Handle) (buffer_count starting_layer : Z) (dev : Device) :
  0 <= starting_layer -> 0 < buffer_count ->
  starting_layer + buffer_count < u32_modulus ->
  Z.of_nat (length buffers) < starting_layer + buffer_count ->
  fst (copy_from_buffers this buffers buffer_count starting_layer dev)
  = Raise out_of_bounds_read.
Proof.
  intros Hs Hk Hfit Hlen.
  unfold copy_from_buffers. vk_unfold. unfold for_u32_try.
  assert (Hbound : u32_add starting_layer buffer_count
                   = starting_layer + buffer_count).
  { unfold u32_add. apply u32_small. unfold is_u32. lia. }
  rewrite Hbound.
  replace (starting_layer + buffer_count - starting_layer)
    with buffer_count by lia.
  pose proof (copy_from_buffers_loop_out_of_bounds this buffers
                (Z.to_nat buffer_count) (Z.to_nat starting_layer)
                (first_region this) []) as Hrun.
  rewrite Z2Nat.id in Hrun by lia.
  fold (first_region this). rewrite Hrun by lia. reflexivity.
Qed.

Lemma copy_from_buffers_overrun_witness :
  0 <= 1 /\ 0 < 2 /\ 1 + 2 < u32_modulus
  /\ Z.of_nat (length [10; 11]) < 1 + 2
  /\ fst (copy_from_buffers small_image [10; 11] 2 1 sample_device)
     = Raise out_of_bounds_read.
Proof.
  assert (H1 : 0 <= 1) by lia.
  assert (H2 : 0 < 2) by lia.
  assert (H3 : 1 + 2 < u32_modulus) by (unfold u32_modulus; lia).
  assert (H4 : Z.of_nat (length [10; 11]) < 1 + 2) by (cbn; lia).
  do 4 (split; [assumption|]).
  exact (copy_from_buffers_overrun small_image [10; 11] 2 1 sample_device
           H1 H2 H3 H4).
Defined.

(** X6. The bound of the loop of [copy_from_buffers] is computed on 32
    bits: when [starting_layer + buffer_count] reaches 2^32 it wraps below
    the starting layer, the loop does not run, and an empty recording is
    submitted without any buffer being read. *)
Theorem copy_from_buffers_bound_wraps (this : DeviceImage)
    (buffers : list Handle) (buffer_count starting_layer : Z) (dev : Device) :
  is_u32 starting_layer -> is_u32 buffer_count ->
  u32_modulus <= starting_layer + buffer_count ->
  copy_from_buffers this buffers buffer_count starting_layer dev
  = (Ok tt, log (EvSubmit []) dev).
Proof.
  intros Hs Hk Hwrap.
  unfold copy_from_buffers. vk_unfold. unfold for_u32_try.
  assert (Hbound : u32_add starting_layer buffer_count
                   = starting_layer + buffer_count - u32_modulus).
  { unfold u32_add, u32. unfold is_u32 in *.
    symmetry. apply Z.mod_unique_pos with (q := 1); lia. }
  rewrite Hbound.
  replace (Z.to_nat (starting_layer + buffer_count - u32_modulus
                     - starting_layer)) with 0%nat
    by (unfold is_u32 in *; lia).
  reflexivity.
Qed.

Lemma copy_from_buffers_bound_wraps_witness :
  is_u32 4294967295 /\ is_u32 2
  /\ u32_modulus <= 4294967295 + 2
  /\ copy_from_buffers small_image [10; 11] 2 4294967295 sample_device
     = (Ok tt, log (EvSubmit []) sample_device).
Proof.
  assert (H1 : is_u32 4294967295) by (unfold is_u32, u32_modulus; lia).
  assert (H2 : is_u32 2) by (unfold is_u32, u32_modulus; lia).
  assert (H3 : u32_modulus <= 4294967295 + 2) by (unfold u32_modulus; lia).
  do 3 (split; [assumption|]).
  exact (copy_from_buffers_bound_wraps small_image [10; 11] 2 4294967295
           sample_device H1 H2 H3).
Defined.

(** X7. Copying one buffer with [copy_from_buffers] is the same as
    [copy_from_buffer] of one layer from the buffer found at position
    [starting_layer] of the array. *)
Theorem copy_from_buffers_single (this : DeviceImage) (buffers : list Handle)
    (buffer : Handle) (starting_layer : Z) (dev : Device) :
  0 <= starting_layer -> starting_layer + 1 < u32_modulus ->
  buffers !! Z.to_nat starting_layer = Some buffer ->
  copy_from_buffers this buffers 1 starting_layer dev
  = copy_from_buffer this buffer starting_layer 1 dev.
Proof.
  intros Hs Hfit Hbuffer.
  pose proof (lookup_lt_Some _ _ _ Hbuffer) as Hlen.
  rewrite copy_from_buffers_in_bounds by lia.
  rewrite (drop_S buffers buffer _ Hbuffer). reflexivity.
Qed.

Lemma copy_from_buffers_single_witness :
  0 <= 1 /\ 1 + 1 < u32_modulus
  /\ [10; 11] !! Z.to_nat 1 = Some 11
  /\ copy_from_buffers small_image [10; 11] 1 1 sample_device
     = copy_from_buffer small_image 11 1 1 sample_device.
Proof.
  assert (H1 : 0 <= 1) by lia.
  assert (H2 : 1 + 1 < u32_modulus) by (unfold u32_modulus; lia).
  assert (H3 : [10; 11] !! Z.to_nat 1 = Some 11) by reflexivity.
  do 3 (split; [assumption|]).
  exact (copy_from_buffers_single small_image [10; 11] 11 1 sample_device
           H1 H2 H3).
Defined.

(** X8. [copy_all_from_buffer] does not check its starting layer against
    the layer count: the number of regions is computed on 32 bits, so a
    starting layer above the layer count makes it build
    [2^32 - (starting_layer - layer_count)] regions, the first of which
    addresses layer [starting_layer], a layer the image does not have. *)
Theorem copy_all_region_count_wraps (this : DeviceImage)
    (starting_layer : Z) :
  is_u32 (layer_count this) -> is_u32 starting_layer ->
  layer_count this < starting_layer ->
  length (copy_all_regions this starting_layer)
  = Z.to_nat (u32_modulus - (starting_layer - layer_count this))
  /\ (0 < length (copy_all_regions this starting_layer))%nat
  /\ exists region,
       copy_all_regions this starting_layer !! 0%nat = Some region
       /\ isl_baseArrayLayer (imageSubresource region) = starting_layer
       /\ layer_count this <= isl_baseArrayLayer (imageSubresource region).
Proof.
  intros HN Hs Hgt.
  assert (Hsize : u32_sub (layer_count this) starting_layer
                  = u32_modulus - (starting_layer - layer_count this)).
  { unfold u32_sub, u32. unfold is_u32 in *.
    symmetry. apply Z.mod_unique_pos with (q := -1); lia. }
  rewrite copy_all_regions_length, Hsize.
  split; [reflexivity|].
  split; [unfold is_u32 in *; lia|].
  exists (fill_region this starting_layer 0 BufferImageCopy_default).
  split.
  { apply (copy_all_regions_lookup this starting_layer 0).
    rewrite Hsize. unfold is_u32 in *. lia. }
  cbn. unfold u32_add. rewrite u32_small by exact Hs. lia.
Qed.

Lemma copy_all_region_count_wraps_witness :
  is_u32 (layer_count small_image) /\ is_u32 4
  /\ layer_count small_image < 4
  /\ length (copy_all_regions small_image 4)
     = Z.to_nat (u32_modulus - (4 - layer_count small_image)).
Proof.
  assert (H1 : is_u32 (layer_count small_image))
    by (vm_compute; split; [discriminate|reflexivity]).
  assert (H2 : is_u32 4) by (vm_compute; split; [discriminate|reflexivity]).
  assert (H3 : layer_count small_image < 4) by (vm_compute; reflexivity).
  do 3 (split; [assumption|]).
  apply (copy_all_region_count_wraps small_image 4 H1 H2 H3).
Defined.

(** X9. On a 2-D image whose aspect is color, copying the remaining layers
    from the last layer on builds one region, and every member the loop
    writes to it is what [copy_from_buffer] sets for that one layer: byte
    offset 0, the image's own aspect mask, mip level 0, that layer, one
    layer, and the image's own extent.  (The members the loop does not
    write are not compared.) *)
Theorem copy_all_last_layer (this : DeviceImage) (buffer : Handle)
    (dev : Device) :
  is_u32 (layer_count this) -> 0 < layer_count this ->
  depth (extent this) = 1 ->
  aspectMask (subresource_range this) = ImageAspectFlagBits.eColor ->
  exists region single,
    copy_all_regions this (layer_count this - 1) = [region]
    /\ copy_from_buffer this buffer (layer_count this - 1) 1 dev
       = (Ok tt,
          log (EvSubmit
                 [copyBufferToImage buffer (img this)
                    ImageLayout.eTransferDstOptimal [single]]) dev)
    /\ copy_all_from_buffer this buffer (layer_count this - 1) dev
       = (Ok tt,
          log (EvSubmit
                 [copyBufferToImage buffer (img this)
                    ImageLayout.eTransferDstOptimal [region]]) dev)
    /\ bufferOffset region = bufferOffset single
    /\ imageSubresource region = imageSubresource single
    /\ imageExtent region = imageExtent single
    /\ bufferOffset region = 0
    /\ imageSubresource region
       = mkImageSubresourceLayers (aspectMask (subresource_range this)) 0
           (layer_count this - 1) 1
    /\ imageExtent region = extent this.
Proof.
  intros HN Hpos Hdepth Haspect.
  assert (Hregions :
            copy_all_regions this (layer_count this - 1)
            = [fill_region this (layer_count this - 1) 0
                 BufferImageCopy_default]).
  { unfold copy_all_regions, for_u32, ArrayVector.
    assert (Hone : u32_sub (layer_count this) (layer_count this - 1) = 1).
    { unfold u32_sub. rewrite u32_small; [lia|].
      unfold is_u32, u32_modulus. lia. }
    rewrite Hone. reflexivity. }
  assert (Hoffset : bufferOffset
                      (fill_region this (layer_count this - 1) 0
                         BufferImageCopy_default) = 0).
  { cbn [fill_region bufferOffset]. rewrite region_offset_wraps. reflexivity. }
  assert (Hlayers : imageSubresource
                      (fill_region this (layer_count this - 1) 0
                         BufferImageCopy_default)
                    = mkImageSubresourceLayers
                        (aspectMask (subresource_range this)) 0
                        (layer_count this - 1) 1).
  { cbn [fill_region imageSubresource]. rewrite Haspect.
    replace (u32_add 0 (layer_count this - 1)) with (layer_count this - 1);
      [reflexivity|].
    unfold u32_add. rewrite u32_small; [lia|]. unfold is_u32 in *. lia. }
  assert (Hextent : imageExtent
                      (fill_region this (layer_count this - 1) 0
                         BufferImageCopy_default) = extent this).
  { cbn [fill_region imageExtent].
    unfold DeviceImage_width, DeviceImage_height.
    destruct (extent this) as [w h d]. cbn in Hdepth. subst d. reflexivity. }
  exists (fill_region this (layer_count this - 1) 0 BufferImageCopy_default).
  exists (mkBufferImageCopy 0 0 0
            (mkImageSubresourceLayers (aspectMask (subresource_range this)) 0
               (layer_count this - 1) 1)
            (mkOffset3D 0 0 0) (extent this)).
  split; [exact Hregions|].
  split; [reflexivity|].
  split; [unfold copy_all_from_buffer; rewrite Hregions; reflexivity|].
  rewrite Hoffset, Hlayers, Hextent. repeat split.
Qed.

Lemma copy_all_last_layer_witness :
  is_u32 (layer_count small_image) /\ 0 < layer_count small_image
  /\ depth (extent small_image) = 1
  /\ aspectMask (subresource_range small_image) = ImageAspectFlagBits.eColor
  /\ exists region,
       copy_all_regions small_image (layer_count small_image - 1) = [region]
       /\ bufferOffset region = 0
       /\ imageSubresource region
          = mkImageSubresourceLayers
              (aspectMask (subresource_range small_image)) 0
              (layer_count small_image - 1) 1
       /\ imageExtent region = extent small_image.
Proof.
  assert (H1 : is_u32 (layer_count small_image))
    by (vm_compute; split; [discriminate|reflexivity]).
  assert (H2 : 0 < layer_count small_image) by (vm_compute; reflexivity).
  assert (H3 : depth (extent small_image) = 1) by reflexivity.
  assert (H4 : aspectMask (subresource_range small_image)
               = ImageAspectFlagBits.eColor) by reflexivity.
  do 4 (split; [assumption|]).
  destruct (copy_all_last_layer small_image 9 sample_device H1 H2 H3 H4)
    as (region & single & Hregions & _ & _ & _ & _ & _ & Hoff & Hlay & Hext).
  exists region. auto.
Defined.

(** ** Lifecycle *)

(** X10. An image that was constructed successfully and is then destroyed
    has made the device create and release each of its two resources
    exactly once: the calls added to the log are the creation of the image,
    the allocation of its memory, the binding at offset 0, the destruction
    of that image and the release of that memory, in this order. *)
Theorem construct_then_destroy
    (a_extent : Extent3D) (a_layer_count : Z) (aspect_mask : Flags)
    (a_format : Format) (tiling : ImageTiling.t) (usage : Flags)
    (sharing_mode : SharingMode.t) (sample_count : Flags)
    (memory_properties : Flags) (dev dev' : Device) (this : DeviceImage) :
  DeviceImage_new a_extent a_layer_count aspect_mask a_format tiling usage
    sharing_mode sample_count memory_properties dev = (Ok this, dev') ->
  exists request allocation,
    events (snd (destroy this dev'))
    = events dev
      ++ [EvCreateImage (img this) request;
          EvAllocateMemory (memory this) allocation;
          EvBindImageMemory (img this) (memory this) 0;
          EvDestroyImage (img this);
          EvFreeMemory (memory this)]
    /\ fst (destroy this dev') = Ok zeroed.
Proof.
  intros Hnew.
  pose proof (DeviceImage_new_cases a_extent a_layer_count aspect_mask
                a_format tiling usage sharing_mode sample_count
                memory_properties dev) as Hcases.
  cbv zeta in Hcases. rewrite Hnew in Hcases.
  destruct Hcases as [[_ Hr]|[(_ & _ & Hr)|[(_ & _ & _ & Hr)|(_ & _ & index & _ & Hr)]]];
    try discriminate Hr.
  inversion Hr; subst this dev'. clear Hr Hnew.
  rewrite destroy_releases. cbn [fst snd].
  eexists. eexists. split; [|reflexivity].
  unfold releases. cbn. rewrite <- !app_assoc. reflexivity.
Qed.

Lemma construct_then_destroy_witness :
  exists request allocation,
    events (snd (destroy
                   (mkDeviceImage 1 2 (mkExtent3D 4 4 1) 37
                      (mkImageSubresourceRange ImageAspectFlagBits.eColor
                         0 1 0 2))
                   (snd (DeviceImage_new (mkExtent3D 4 4 1) 2
                           ImageAspectFlagBits.eColor 37 ImageTiling.eOptimal
                           6 SharingMode.eExclusive 1 0x2 sample_device))))
    = events sample_device
      ++ [EvCreateImage 1 request; EvAllocateMemory 2 allocation;
          EvBindImageMemory 1 2 0; EvDestroyImage 1; EvFreeMemory 2]
    /\ fst (destroy
              (mkDeviceImage 1 2 (mkExtent3D 4 4 1) 37
                 (mkImageSubresourceRange ImageAspectFlagBits.eColor 0 1 0 2))
              (snd (DeviceImage_new (mkExtent3D 4 4 1) 2
                      ImageAspectFlagBits.eColor 37 ImageTiling.eOptimal
                      6 SharingMode.eExclusive 1 0x2 sample_device)))
       = Ok zeroed.
Proof.
  apply (construct_then_destroy (mkExtent3D 4 4 1) 2
           ImageAspectFlagBits.eColor 37 ImageTiling.eOptimal 6
           SharingMode.eExclusive 1 0x2 sample_device).
  reflexivity.
Defined.

(** X11. A view can always be created over an image that was constructed
    successfully: [create_img_view] does not raise, returns a non-null
    handle, and asks for a 2-D view when the image was constructed with one
    layer and for a 2-D-array view otherwise, over the image's handle,
    format and all its layers. *)
Theorem constructed_image_has_view
    (a_extent : Extent3D) (a_layer_count : Z) (aspect_mask : Flags)
    (a_format : Format) (tiling : ImageTiling.t) (usage : Flags)
    (sharing_mode : SharingMode.t) (sample_count : Flags)
    (memory_properties : Flags) (dev dev' : Device) (this : DeviceImage) :
  DeviceImage_new a_extent a_layer_count aspect_mask a_format tiling usage
    sharing_mode sample_count memory_properties dev = (Ok this, dev') ->
  exists view,
    view <> nullptr
    /\ create_img_view this dev'
       = (Ok view,
          log (EvCreateImageView view
                 (mkImageViewCreateInfo (img this)
                    (if a_layer_count =? 1 then ImageViewType.e2D
                     else ImageViewType.e2DArray)
                    a_format
                    (mkImageSubresourceRange aspect_mask 0 1 0 a_layer_count)))
            (snd (fresh dev'))).
Proof.
  intros Hnew.
  pose proof (DeviceImage_new_cases a_extent a_layer_count aspect_mask
                a_format tiling usage sharing_mode sample_count
                memory_properties dev) as Hcases.
  cbv zeta in Hcases. rewrite Hnew in Hcases.
  destruct Hcases as [[_ Hr]|[(_ & _ & Hr)|[(_ & _ & _ & Hr)|(Hl & _ & index & _ & Hr)]]];
    try discriminate Hr.
  inversion Hr; subst this dev'. clear Hr Hnew.
  unfold create_img_view, CreateImageView, layer_count.
  cbn [img format subresource_range aspectMask layerCount].
  destruct (Z.eqb_spec a_layer_count 1) as [Hone|Hone];
    [|destruct (Z.ltb_spec 1 a_layer_count) as [Hmore|Hmore]; [|lia]];
    (eexists; split; [|reflexivity]; unfold nullptr; cbn; lia).
Qed.

Lemma constructed_image_has_view_witness :
  exists view,
    view <> nullptr
    /\ create_img_view
         (mkDeviceImage 1 2 (mkExtent3D 4 4 1) 37
            (mkImageSubresourceRange ImageAspectFlagBits.eColor 0 1 0 2))
         (snd (DeviceImage_new (mkExtent3D 4 4 1) 2
                 ImageAspectFlagBits.eColor 37 ImageTiling.eOptimal
                 6 SharingMode.eExclusive 1 0x2 sample_device))
       = (Ok view,
          log (EvCreateImageView view
                 (mkImageViewCreateInfo 1 ImageViewType.e2DArray 37
                    (mkImageSubresourceRange ImageAspectFlagBits.eColor
                       0 1 0 2)))
            (snd (fresh
                    (snd (DeviceImage_new (mkExtent3D 4 4 1) 2
                            ImageAspectFlagBits.eColor 37 ImageTiling.eOptimal
                            6 SharingMode.eExclusive 1 0x2 sample_device))))).
Proof.
  apply (constructed_image_has_view (mkExtent3D 4 4 1) 2
           ImageAspectFlagBits.eColor 37 ImageTiling.eOptimal 6
           SharingMode.eExclusive 1 0x2 sample_device).
  reflexivity.
Defined.

(** X12. After [destroy] no view can be created from the object: its
    layer count has been zeroed with the rest, so [create_img_view] raises
    the invalid-layer-count error and asks nothing of the device. *)
Theorem no_view_after_destroy (this : DeviceImage) (dev : Device) :
  (destroyed ← destroy this ; create_img_view destroyed) dev
  = (Raise (runtime_error "Failed to create Image View: Invalid layer count!"),
     snd (destroy this dev)).
Proof.
  unfold mbind, Vk_bind. rewrite destroy_releases. reflexivity.
Qed.

(** X13. A moved-from object keeps its extent, format and subresource
    range, and [create_img_view] does not look at the handle: on the source
    of a move whose layer count is at least 1 it does not raise, it asks
    the device for a view of the null image with the format and the layer
    count of the source. *)
Theorem view_of_moved_from (source : DeviceImage) (dev : Device) :
  1 <= layer_count source ->
  extent (snd (DeviceImage_move source)) = extent source
  /\ format (snd (DeviceImage_move source)) = format source
  /\ subresource_range (snd (DeviceImage_move source))
     = subresource_range source
  /\ exists view_type,
       create_img_view (snd (DeviceImage_move source)) dev
       = (Ok (Z.pos (next_handle dev)),
          log (EvCreateImageView (Z.pos (next_handle dev))
                 (mkImageViewCreateInfo nullptr view_type (format source)
                    (mkImageSubresourceRange
                       (aspectMask (subresource_range source)) 0 1 0
                       (layer_count source))))
            (snd (fresh dev))).
Proof.
  intros Hlayers. do 3 (split; [reflexivity|]).
  unfold create_img_view, CreateImageView, layer_count in *. vk_unfold.
  cbn [DeviceImage_move snd with_img with_memory img memory format
       subresource_range].
  destruct (Z.eqb_spec (layerCount (subresource_range source)) 1) as [H1|H1];
    [eexists; reflexivity|].
  destruct (Z.ltb_spec 1 (layerCount (subresource_range source))) as [Hd|Hd];
    [eexists; reflexivity|lia].
Qed.

Lemma view_of_moved_from_witness :
  1 <= layer_count small_image
  /\ exists view_type,
       create_img_view (snd (DeviceImage_move small_image)) sample_device
       = (Ok (Z.pos (next_handle sample_device)),
          log (EvCreateImageView (Z.pos (next_handle sample_device))
                 (mkImageViewCreateInfo nullptr view_type (format small_image)
                    (mkImageSubresourceRange
                       (aspectMask (subresource_range small_image)) 0 1 0
                       (layer_count small_image))))
            (snd (fresh sample_device))).
Proof.
  assert (H : 1 <= layer_count small_image) by (vm_compute; discriminate).
  split; [exact H|].
  apply (view_of_moved_from small_image sample_device H).
Defined.

(** X14. After a move construction, destroying the new object and the
    moved-from one, in either order, has on the device exactly the effect
    of destroying the original once: the resources change owner, they are
    neither released twice nor kept. *)
Theorem move_then_destroy_both (source : DeviceImage) (dev : Device) :
  (_ ← destroy (fst (DeviceImage_move source)) ;
   destroy (snd (DeviceImage_move source))) dev
  = destroy source dev
  /\ (_ ← destroy (snd (DeviceImage_move source)) ;
      destroy (fst (DeviceImage_move source))) dev
     = destroy source dev.
Proof.
  unfold mbind, Vk_bind. split.
  - rewrite (destroy_releases (fst (DeviceImage_move source))).
    rewrite destroy_null_handles by reflexivity.
    rewrite destroy_releases. reflexivity.
  - rewrite (destroy_null_handles (snd (DeviceImage_move source)))
      by reflexivity.
    rewrite !destroy_releases. reflexivity.
Qed.

(** X15. Move assignment does not guard against self-assignment: assigning
    an object to itself releases its image and its memory and leaves it
    zeroed, every other object being untouched. *)
Theorem self_move_assign_destroys (this : Address) (objects : Objects)
    (dev : Device) :
  exists objects',
    move_assign this this objects dev
    = (Ok objects', after_events dev (releases (objects this)))
    /\ objects' this = zeroed
    /\ (forall c, c <> this -> objects' c = objects c).
Proof.
  destruct (move_assign_result this this objects dev)
    as (objects' & Hrun & Hrest & _ & Hself).
  exists objects'. split; [exact Hrun|]. split; [apply Hself; reflexivity|].
  intros c Hc. apply Hrest; exact Hc.
Qed.

(** X17. When the starting layer equals the layer count there is no layer
    left to copy, and [copy_all_from_buffer] still records and submits a
    copy command, one with no region at all. *)
Theorem copy_all_nothing_left (this : DeviceImage) (buffer : Handle)
    (dev : Device) :
  copy_all_from_buffer this buffer (layer_count this) dev
  = (Ok tt,
     log (EvSubmit
            [copyBufferToImage buffer (img this)
               ImageLayout.eTransferDstOptimal []]) dev).
Proof.
  unfold copy_all_from_buffer.
  assert (Hregions : copy_all_regions this (layer_count this) = []).
  { apply length_zero_iff_nil. rewrite copy_all_regions_length.
    unfold u32_sub. rewrite Z.sub_diag. reflexivity. }
  rewrite Hregions. reflexivity.
Qed.
